(** * Anole gene-tree fetcher: the flattener, the checkpoint store and the
      batch engine of [Anole_gene_trees_fetch.py]

    The Python module is embedded function by function.  Remote payloads are
    untyped JSON values, Python exceptions are a [result] type, the module
    globals and the durable checkpoint file are an explicit [world] record
    that every operation threads, and the remote service is a pair of
    response oracles. *)

From Stdlib Require Import ZArith String Ascii List Bool Lia.
From stdpp Require Import base option list gmap strings.

Local Open Scope string_scope.
Local Open Scope Z_scope.
Local Open Scope list_scope.

(** ** JSON payloads and the Python operations applied to them *)

Module Json.

(** What [response.json()] returns.  A [dict] keeps its pairs in insertion
    order; a lookup finds the first pair with the key. *)
#[warnings="-register-all"]
Inductive json : Type :=
| JNull : json
| JBool (b : bool) : json
| JNum (z : Z) : json
| JStr (s : string) : json
| JList (l : list json) : json
| JDict (kvs : list (string * json)) : json.

(** The exceptions that the modelled code can raise. *)
Inductive exn : Type :=
| TimeoutError      (* timeout_decorator.TimeoutError *)
| RequestException  (* transport failure inside requests.get *)
| JSONDecodeError   (* response.json() on a body that is not JSON *)
| TypeError
| AttributeError
| KeyError
| OSError.          (* open() or a write on an output file fails *)

Inductive result (A : Type) : Type :=
| Ok (a : A)
| Raise (e : exn).
Arguments Ok {A} a.
Arguments Raise {A} e.

Definition rbind {A B} (m : result A) (k : A → result B) : result B :=
  match m with
  | Ok a => k a
  | Raise e => Raise e
  end.

(** [x ← m; k] runs [m] and stops at the first exception. *)
#[global] Instance result_bind : MBind result := fun A B k m => rbind m k.
#[global] Instance result_ret : MRet result := fun A a => Ok a.

(** [d.get(key)] on the pairs of a dict. *)
Fixpoint dict_get (key : string) (kvs : list (string * json)) : option json :=
  match kvs with
  | [] => None
  | (k, v) :: rest => if String.eqb k key then Some v else dict_get key rest
  end.

(** [s == x] for a string [s] and a JSON value [x]. *)
Definition str_equals (s : string) (x : json) : bool :=
  match x with
  | JStr s' => String.eqb s s'
  | _ => false
  end.

(** [sub in s] on two strings: substring test. *)
Definition is_substring (sub s : string) : bool :=
  match String.index 0 sub s with
  | Some _ => true
  | None => false
  end.

(** [key in x]: key membership on a dict, element membership on a list,
    substring test on a string, [TypeError] on anything else. *)
Definition py_contains (key : string) (x : json) : result bool :=
  match x with
  | JDict kvs => Ok (bool_decide (is_Some (dict_get key kvs)))
  | JList l => Ok (existsb (str_equals key) l)
  | JStr s => Ok (is_substring key s)
  | _ => Raise TypeError
  end.

(** [x[key]] with a string key. *)
Definition py_getitem (x : json) (key : string) : result json :=
  match x with
  | JDict kvs =>
      match dict_get key kvs with
      | Some v => Ok v
      | None => Raise KeyError
      end
  | _ => Raise TypeError
  end.

(** [x.get(key, default)]: only a dict has the method. *)
Definition py_get (x : json) (key : string) (default : json) : result json :=
  match x with
  | JDict kvs => Ok (from_option id default (dict_get key kvs))
  | _ => Raise AttributeError
  end.

(** The characters of a string, each as a one-character string. *)
Fixpoint chars (s : string) : list json :=
  match s with
  | EmptyString => []
  | String c s' => JStr (String c EmptyString) :: chars s'
  end.

(** [for child in x]: the elements of a list, the keys of a dict, the
    characters of a string. *)
Definition py_iter (x : json) : result (list json) :=
  match x with
  | JList l => Ok l
  | JDict kvs => Ok (map (fun kv => JStr (fst kv)) kvs)
  | JStr s => Ok (chars s)
  | _ => Raise TypeError
  end.

(** Truth value of a payload in [if x:] and [if not x:]. *)
Definition truthy (x : json) : bool :=
  match x with
  | JNull => false
  | JBool b => b
  | JNum z => negb (z =? 0)
  | JStr s => negb (String.eqb s "")
  | JList l => match l with [] => false | _ => true end
  | JDict kvs => match kvs with [] => false | _ => true end
  end.

End Json.
Export Json.

(** ** Tree flattener: [process_gene_tree_data] and its inner
       [traverse_tree] *)

Module Flattener.

(** One dict appended to [processed_data]; the fields keep whatever JSON
    value the payload held. *)
Record row : Type := Row {
  gene_id : json;
  gene_name : json;
  species : json
}.

(** A [for x in xs:] loop whose body updates an accumulator and may raise. *)
Definition for_each {A S : Type} (body : A → S → result S)
  : list A → S → result S :=
  fix go (xs : list A) (acc : S) : result S :=
    match xs with
    | [] => Ok acc
    | x :: xs' => acc' ← body x acc; go xs' acc'
    end.

(** The [else] branch of [traverse_tree] (lines 54-62): a node without
    [children] yields a row only when it has a [taxonomy] key. *)
Definition extract_leaf (node : json) (processed_data : list row)
  : result (list row) :=
  has_taxonomy ← py_contains "taxonomy" node;
  if (has_taxonomy : bool) then
    taxonomy ← py_getitem node "taxonomy";
    species_name ← py_get taxonomy "scientific_name" (JStr "N/A");
    gene_id ← py_get node "id" (JStr "N/A");
    gene_member ← py_get node "gene_member" (JDict []);
    gene_name ← py_get gene_member "display_name" (JStr "N/A");
    Ok (processed_data ++ [Row gene_id gene_name species_name])
  else Ok processed_data.

(** The body of [traverse_tree] with its recursive call abstracted. *)
Definition traverse_step (self : json → list row → result (list row))
    (node : json) (processed_data : list row) : result (list row) :=
  has_children ← py_contains "children" node;
  if (has_children : bool) then
    children ← py_getitem node "children";
    xs ← py_iter children;
    for_each self xs processed_data
  else extract_leaf node processed_data.

(** [traverse_tree] on a node that is not a dict: subscripting it raises
    before any recursive call. *)
Definition traverse_scalar (node : json) (processed_data : list row)
  : result (list row) :=
  traverse_step (fun _ _ => Raise TypeError) node processed_data.

(** [traverse_tree] (lines 49-62), by structural recursion on the payload.
    The scan over the pairs is the lookup of [children]; only a list of
    children holds nodes to recurse into, the keys of a dict and the
    characters of a string are strings.  [traverse_tree_unfold] below
    shows that this is [traverse_step] applied to itself. *)
Fixpoint traverse_tree (node : json) (processed_data : list row)
  {struct node} : result (list row) :=
  match node with
  | JDict kvs =>
      (fix scan (l : list (string * json)) : result (list row) :=
         match l with
         | [] => extract_leaf node processed_data
         | (k, v) :: rest =>
             if String.eqb k "children" then
               match v with
               | JList cs => for_each traverse_tree cs processed_data
               | _ => xs ← py_iter v; for_each traverse_scalar xs processed_data
               end
             else scan rest
         end) kvs
  | _ => traverse_scalar node processed_data
  end.

(** [process_gene_tree_data] (lines 46-70). *)
Definition process_gene_tree_data (gene_tree_info : json)
  : result (list row) :=
  match gene_tree_info with
  | JList (first :: _) =>
      has_tree ← py_contains "tree" first;
      if (has_tree : bool) then
        root ← py_getitem first "tree";
        traverse_tree root []
      else Ok []
  | JDict kvs =>
      match dict_get "tree" kvs with
      | Some root => traverse_tree root []
      | None => Ok []
      end
  | _ => Ok []
  end.

(** *** The reference enumeration of the specification

    The specification describes the payload as a tagged union of internal
    nodes and leaves and the result as one record per leaf, in depth-first
    left-to-right order, with "N/A" for a missing field. *)

#[warnings="-register-all"]
Inductive node : Type :=
| Internal (fields : list (string * json)) (children : list node)
| Leaf (fields : list (string * json)).

Fixpoint ref_leaves (t : node) : list (list (string * json)) :=
  match t with
  | Leaf fields => [fields]
  | Internal _ children => flat_map ref_leaves children
  end.

Definition nested_get (outer inner : string) (fields : list (string * json))
  : option json :=
  match dict_get outer fields with
  | Some (JDict d) => dict_get inner d
  | _ => None
  end.

Definition or_na (o : option json) : json := from_option id (JStr "N/A") o.

Definition ref_record (fields : list (string * json)) : row :=
  {| gene_id := or_na (dict_get "id" fields);
     gene_name := or_na (nested_get "gene_member" "display_name" fields);
     species := or_na (nested_get "taxonomy" "scientific_name" fields) |}.

Definition ref_flatten (t : node) : list row := map ref_record (ref_leaves t).

(** [encodes t j]: the payload [j] is the tree [t].  A dict without a
    [children] key is a leaf; a dict whose [children] is a list of encoded
    nodes is an internal node. *)
#[warnings="-register-all"]
Inductive encodes : node → json → Prop :=
| encodes_leaf kvs :
    dict_get "children" kvs = None →
    encodes (Leaf kvs) (JDict kvs)
| encodes_internal kvs children js :
    dict_get "children" kvs = Some (JList js) →
    Forall2 encodes children js →
    encodes (Internal kvs children) (JDict kvs).

(** A leaf has a [taxonomy] field. *)
Definition has_taxonomy (fields : list (string * json)) : bool :=
  bool_decide (is_Some (dict_get "taxonomy" fields)).

(** The fields that the extraction subscripts are objects where present. *)
Definition is_object (o : option json) : bool :=
  match o with
  | None | Some (JDict _) => true
  | Some _ => false
  end.

Definition leaf_typed (fields : list (string * json)) : bool :=
  is_object (dict_get "taxonomy" fields) &&
  is_object (dict_get "gene_member" fields).

(** The payloads whose shape the envelope test of lines 64-68 inspects
    without raising: anything but a non-empty list that starts with a value
    that is not a mapping. *)
Definition envelope_shape (gene_tree_info : json) : bool :=
  match gene_tree_info with
  | JList (JDict _ :: _) => true
  | JList (_ :: _) => false
  | _ => true
  end.

(** The root wrapped by a payload: under [tree] in the first element of a
    non-empty list, or under [tree] in a mapping. *)
Definition wrapped_root (gene_tree_info : json) : option json :=
  match gene_tree_info with
  | JList (JDict kvs :: _) => dict_get "tree" kvs
  | JDict kvs => dict_get "tree" kvs
  | _ => None
  end.

End Flattener.

(** ** Checkpoint store: [save_checkpoint] and [load_checkpoint] *)

Module Checkpoint.

(** The record that [json.dump] writes to [checkpoint.json].  The file is
    only ever written by [save_checkpoint], so its fields have the types
    written there; [load_checkpoint] reads [current_gene_number] with a
    default, so the key may be missing from a stored record.  [json.dump]
    followed by [json.load] is taken to return the record it was given. *)
Record checkpoint_data : Type := CheckpointData {
  stored_processed_genes : list string;
  stored_last_gene : option string;
  stored_current_gene_number : option Z
}.

(** The durable state of [checkpoint.json]. [open(..., 'w')] empties the
    file before anything is written to it: until [json.dump] has finished
    the file holds an incomplete text ([Torn]). *)
Inductive file : Type :=
| Missing                          (* os.path.exists is False *)
| Document (d : checkpoint_data)   (* the complete text of a record *)
| Torn.                            (* emptied, text not complete *)

(** Where a crash can fall inside [save_checkpoint] (lines 74-79). *)
Inductive save_point : Type :=
| BeforeOpen   (* line 74 not yet executed *)
| AfterOpen    (* file opened for writing, dump not finished *)
| AfterDump.   (* dump finished and file closed *)

Definition durable_at (p : save_point) (old : file) (d : checkpoint_data)
  : file :=
  match p with
  | BeforeOpen => old
  | AfterOpen => Torn
  | AfterDump => Document d
  end.

(** [load_checkpoint] (lines 83-92) on the state of the file. *)
Definition load_checkpoint (f : file)
  : result (gset string * option string * Z) :=
  match f with
  | Missing => Ok (∅, None, 0)
  | Document d =>
      Ok (list_to_set (stored_processed_genes d),
          stored_last_gene d,
          from_option id 0 (stored_current_gene_number d))
  | Torn => Raise JSONDecodeError
  end.

End Checkpoint.
Export Checkpoint.

(** ** Batch engine *)

Module Engine.
Import Flattener.

(** A row of the gene list (lines 200-203). *)
Record gene : Type := Gene {
  gene_id : string;
  gene_symbol : string
}.

(** What one remote request does. *)
Inductive response : Type :=
| TimedOut                                   (* the 300 s bound is exceeded *)
| ConnectionFailed                           (* requests.get raises *)
| Http (status_code : Z) (body : option json).
    (* body = None: the text is not JSON *)

(** What surrounds a run.  The remote service: the answer to the lookup of
    a gene id and to the gene-tree request for a symbol.  The output
    directory: whether the [with open(...)] block that writes the table
    [<symbol>_gene_tree.csv] with given rows (lines 133-138), or the marker
    [<symbol>_gene_tree.txt] (lines 145-146 and 150-151), runs to its end.
    The symbol comes from the remote answer, so [open] can raise on it, for
    instance on a symbol that holds a slash. *)
Record remote : Type := Remote {
  lookup : string → response;
  genetree : string → json → response;
  writes_csv : json → list row → bool;
  writes_txt : json → bool
}.

(** Observable actions, oldest first.  The two artifact writes carry the
    gene being processed and the symbol that names the file
    ([<symbol>_gene_tree.csv] or [<symbol>_gene_tree.txt]); [WriteFailed]
    is a write block that raised: the file is missing or incomplete. *)
Inductive event : Type :=
| GetGeneInfo (id : string)
| GetGeneTree (id : string) (symbol : json)
| WriteCsv (id : string) (symbol : json) (rows : list row)
| WriteTxt (id : string) (symbol : json)
| WriteFailed (id : string) (symbol : json)
| WriteCheckpoint (d : checkpoint_data).

(** The module globals (lines 14-17; [total_genes] is only printed), the
    checkpoint file and the actions performed so far.  Writing the fixed
    file [checkpoint.json] is taken to succeed. *)
Record world : Type := World {
  last_processed_gene : option string;
  processed_genes : gset string;
  current_gene_number : Z;
  checkpoint_json : file;
  trace : list event
}.

Definition set_last_processed_gene (v : option string) (w : world) : world :=
  World v (processed_genes w) (current_gene_number w) (checkpoint_json w)
        (trace w).
Definition set_processed_genes (v : gset string) (w : world) : world :=
  World (last_processed_gene w) v (current_gene_number w) (checkpoint_json w)
        (trace w).
Definition set_current_gene_number (v : Z) (w : world) : world :=
  World (last_processed_gene w) (processed_genes w) v (checkpoint_json w)
        (trace w).
Definition set_checkpoint_json (v : file) (w : world) : world :=
  World (last_processed_gene w) (processed_genes w) (current_gene_number w) v
        (trace w).
Definition log (e : event) (w : world) : world :=
  World (last_processed_gene w) (processed_genes w) (current_gene_number w)
        (checkpoint_json w) (trace w ++ [e]).

(** Statements that change the world and may raise. *)
Definition M (A : Type) : Type := world → result A * world.

#[global] Instance M_ret : MRet M := fun A a w => (Ok a, w).
#[global] Instance M_bind : MBind M := fun A B k m w =>
  match m w with
  | (Ok a, w') => k a w'
  | (Raise e, w') => (Raise e, w')
  end.

Definition lift {A} (r : result A) : M A := fun w => (r, w).
Definition act (f : world → world) : M unit := fun w => (Ok tt, f w).
Definition read {A} (f : world → A) : M A := fun w => (Ok (f w), w).

(** [fetch_gene_info] (lines 20-30); Python's [None] is [JNull]. *)
Definition fetch_gene_info (r : remote) (gene_id : string) : M json :=
  _ ← act (log (GetGeneInfo gene_id));
  match lookup r gene_id with
  | TimedOut => lift (Raise TimeoutError)
  | ConnectionFailed => lift (Raise RequestException)
  | Http status_code body =>
      if status_code =? 200 then
        match body with
        | Some j => mret j
        | None => lift (Raise JSONDecodeError)
        end
      else mret JNull
  end.

(** [fetch_gene_tree_info] (lines 33-43). *)
Definition fetch_gene_tree_info (r : remote) (gene_id : string)
    (gene_symbol : json) : M json :=
  _ ← act (log (GetGeneTree gene_id gene_symbol));
  match genetree r gene_id gene_symbol with
  | TimedOut => lift (Raise TimeoutError)
  | ConnectionFailed => lift (Raise RequestException)
  | Http status_code body =>
      if status_code =? 200 then
        match body with
        | Some j => mret j
        | None => lift (Raise JSONDecodeError)
        end
      else mret JNull
  end.

(** The dict given to [json.dump] by [save_checkpoint]. *)
Definition checkpoint_record (processed_genes : gset string) (w : world)
  : checkpoint_data :=
  {| stored_processed_genes := elements processed_genes;
     stored_last_gene := last_processed_gene w;
     stored_current_gene_number := Some (current_gene_number w) |}.

(** [save_checkpoint] (lines 73-80) cut at a point [p]: what the file
    holds if the process dies there. *)
Definition save_checkpoint_until (p : save_point)
    (processed_genes : gset string) (w : world) : world :=
  set_checkpoint_json
    (durable_at p (checkpoint_json w) (checkpoint_record processed_genes w)) w.

(** [save_checkpoint] (lines 73-80) run to its end. *)
Definition save_checkpoint (processed_genes : gset string) (w : world)
  : world :=
  log (WriteCheckpoint (checkpoint_record processed_genes w))
      (save_checkpoint_until AfterDump processed_genes w).

(** [signal_handler] (lines 95-99); the process exits afterwards. *)
Definition signal_handler (w : world) : world :=
  save_checkpoint (processed_genes w) w.

(** The block of lines 132-138: the table is written, or the block raises. *)
Definition write_csv (r : remote) (id : string) (symbol : json)
    (rows : list row) : M unit :=
  if writes_csv r symbol rows then act (log (WriteCsv id symbol rows))
  else _ ← act (log (WriteFailed id symbol)); lift (Raise OSError).

(** The blocks of lines 144-146 and 149-151: the marker is written, or the
    block raises. *)
Definition write_txt (r : remote) (id : string) (symbol : json) : M unit :=
  if writes_txt r symbol then act (log (WriteTxt id symbol))
  else _ ← act (log (WriteFailed id symbol)); lift (Raise OSError).

(** The body of the [try] in [process_gene_batch] (lines 115-161). *)
Definition try_body (r : remote) (gene : gene) : M unit :=
  gene_info ← fetch_gene_info r (gene_id gene);
  if negb (truthy gene_info) then mret tt (* continue *)
  else
    gene_symbol ← lift (py_get gene_info "display_name"
                               (JStr (gene_symbol gene)));
    gene_tree_info ← fetch_gene_tree_info r (gene_id gene) gene_symbol;
    _ ← (if truthy gene_tree_info then
           processed_data ← lift (process_gene_tree_data gene_tree_info);
           match processed_data with
           | _ :: _ => write_csv r (gene_id gene) gene_symbol processed_data
           | [] => write_txt r (gene_id gene) gene_symbol
           end
         else write_txt r (gene_id gene) gene_symbol);
    _ ← act (fun w =>
               set_processed_genes ({[gene_id gene]} ∪ processed_genes w) w);
    _ ← act (set_last_processed_gene (Some (gene_id gene)));
    act (fun w => save_checkpoint (processed_genes w) w).

(** One iteration of the loop of [process_gene_batch] (lines 106-169).
    Both [except] clauses only print; the one-second sleep is left out. *)
Definition process_gene (r : remote) (gene : gene) (w : world) : world :=
  let w := set_current_gene_number (current_gene_number w + 1) w in
  if bool_decide (gene_id gene ∈ processed_genes w) then w (* continue *)
  else (try_body r gene w).2.

(** [process_gene_batch] (lines 102-169). *)
Fixpoint process_gene_batch (r : remote) (batch : list gene) (w : world)
  : world :=
  match batch with
  | [] => w
  | gene :: rest => process_gene_batch r rest (process_gene r gene w)
  end.

(** [range(start, stop, step)] for a positive step. *)
Definition py_range (start stop step : Z) : list Z :=
  map (fun k => start + Z.of_nat k * step)
      (seq 0 (Z.to_nat ((stop - start + step - 1) / step))).

(** [l[i:j]]: a negative index counts from the end, both are clamped. *)
Definition py_slice {A} (l : list A) (i j : Z) : list A :=
  let n := Z.of_nat (length l) in
  let clamp k := if k <? 0 then Z.max (k + n) 0 else Z.min k n in
  take (Z.to_nat (clamp j - clamp i)) (drop (Z.to_nat (clamp i)) l).

Definition batch_size : Z := 100.

(** The batches that [process_all_gene_trees] hands to
    [process_gene_batch] (lines 210-214), given the position it loaded. *)
Definition batches (anole_genes : list gene) (start : Z) : list (list gene) :=
  map (fun i => py_slice anole_genes i (i + batch_size))
      (py_range start (Z.of_nat (length anole_genes)) batch_size).

(** Line 180 of [process_all_gene_trees]: the loaded set and position go
    to the globals; the loaded [last_gene] goes to a local variable, so the
    global [last_processed_gene] keeps its value. *)
Definition resume : M unit :=
  loaded ← (fun w => (load_checkpoint (checkpoint_json w), w));
  let '(loaded_genes, last_gene, loaded_number) := loaded in
  _ ← act (set_processed_genes loaded_genes);
  act (set_current_gene_number loaded_number).

(** [process_all_gene_trees] (lines 172-217) on the gene list read from the
    CSV file.  The range of line 211 is built once, from the position just
    loaded. *)
Definition process_all_gene_trees (r : remote) (anole_genes : list gene)
  : M unit :=
  _ ← resume;
  first_index ← read current_gene_number;
  _ ← act (fun w => foldl (fun w batch => process_gene_batch r batch w) w
                          (batches anole_genes first_index));
  act (fun w => save_checkpoint (processed_genes w) w).

(** The module at import time (lines 14-17) with the file found on disk. *)
Definition start (f : file) : world :=
  {| last_processed_gene := None; processed_genes := ∅;
     current_gene_number := 0; checkpoint_json := f; trace := [] |}.

(** The script (lines 220-231): a run from a fresh process. *)
Definition main (r : remote) (anole_genes : list gene) (f : file) : world :=
  match process_all_gene_trees r anole_genes (start f) with
  | (Ok _, w) => w
  | (Raise _, w) => save_checkpoint (processed_genes w) w
  end.

End Engine.

(** ** What a run is observed to do *)

Module Observations.
Import Flattener Engine.

(** A status outside 200..299. *)
Definition non_2xx (status : Z) : Prop := ¬ (200 ≤ status < 300).

(** The identifier was tried and given up after the actions [events]:
    nothing but the position counter and the log of actions has changed. *)
Definition given_up (events : list event) (w w' : world) : Prop :=
  trace w' = trace w ++ events ∧
  processed_genes w' = processed_genes w ∧
  last_processed_gene w' = last_processed_gene w ∧
  checkpoint_json w' = checkpoint_json w ∧
  current_gene_number w' = current_gene_number w + 1.

(** The identifier was completed with the no-data marker: after the two
    requests the [.txt] marker is written, then the checkpoint. *)
Definition completed_without_data (g : gene) (symbol : json)
    (w w' : world) : Prop :=
  let d := CheckpointData (elements ({[gene_id g]} ∪ processed_genes w))
             (Some (gene_id g)) (Some (current_gene_number w + 1)) in
  trace w' = trace w ++ [GetGeneInfo (gene_id g);
                         GetGeneTree (gene_id g) symbol;
                         WriteTxt (gene_id g) symbol;
                         WriteCheckpoint d] ∧
  processed_genes w' = {[gene_id g]} ∪ processed_genes w ∧
  last_processed_gene w' = Some (gene_id g) ∧
  checkpoint_json w' = Document d ∧
  current_gene_number w' = current_gene_number w + 1.

(** The primary lookup succeeded and named the gene [symbol]. *)
Definition primary_names (r : remote) (g : gene) (symbol : json) : Prop :=
  ∃ info, lookup r (gene_id g) = Http 200 (Some info) ∧
          truthy info = true ∧
          py_get info "display_name" (JStr (gene_symbol g)) = Ok symbol.

(** An explicit empty or non-success answer of the dependent lookup. *)
Definition no_data_response (resp : response) : bool :=
  match resp with
  | Http status_code body =>
      if status_code =? 200 then
        match body with
        | Some j => negb (truthy j)
        | None => false
        end
      else true
  | _ => false
  end.


(** The identifiers whose primary lookup was requested, oldest first. *)
Definition requested (events : list event) : list string :=
  omap (fun e => match e with GetGeneInfo id => Some id | _ => None end)
       events.

(** The identifiers for which an artifact was written, oldest first. *)
Definition artifacts (events : list event) : list string :=
  omap (fun e => match e with
                 | WriteCsv id _ _ | WriteTxt id _ => Some id
                 | _ => None
                 end) events.

(** The identifiers that a run goes through, in order. *)
Definition visited (genes : list gene) (position : Z) : list gene :=
  concat (batches genes position).

(** The state of a run between two identifiers, after the loop has gone
    through the first [k] of them. *)
Definition state_after (r : remote) (genes : list gene) (f : file) (k : nat)
  : world :=
  let w0 := (resume (start f)).2 in
  process_gene_batch r (take k (visited genes (current_gene_number w0))) w0.

(** What holds between two identifiers of a run that loaded [completed]
    and [position] from the file [f], after [k] identifiers. *)
Definition between_identifiers (completed : gset string) (position : Z)
    (f : file) (k : nat) (w : world) : Prop :=
  current_gene_number w = position + Z.of_nat k ∧
  processed_genes w = completed ∪ list_to_set (artifacts (trace w)) ∧
  last (artifacts (trace w)) = last_processed_gene w ∧
  ((artifacts (trace w) = [] ∧ checkpoint_json w = f) ∨
   (∃ p, position < p ≤ position + Z.of_nat k ∧
         checkpoint_json w
         = Document (CheckpointData (elements (processed_genes w))
                                    (last_processed_gene w) (Some p)))).

End Observations.

(** ** Sample payloads, remote services and worlds *)

Module Samples.
Import Flattener Engine.

Definition leaf_A : list (string * json) :=
  [("taxonomy", JDict [("scientific_name", JStr "Species A")]);
   ("id", JStr "L1");
   ("gene_member", JDict [("display_name", JStr "GeneA")])].
Definition leaf_B : list (string * json) :=
  [("taxonomy", JDict [("scientific_name", JStr "Species B")]);
   ("id", JStr "L2")].
Definition leaf_bare : list (string * json) := [("id", JStr "L3")].
Definition sample_inner : list (string * json) :=
  [("children", JList [JDict leaf_bare; JDict leaf_B])].
Definition sample_root : list (string * json) :=
  [("id", JStr "root");
   ("children", JList [JDict leaf_A; JDict sample_inner])].

Definition old_record : checkpoint_data :=
  CheckpointData ["G1"] (Some "G1") (Some 1).
Definition world_after_G2 : world :=
  World (Some "G2") {["G1"; "G2"]} 2 (Document old_record) [].

Definition sample_tree : json :=
  JDict [("tree", JDict sample_root)].

(** A remote service: G1 has a tree, G2 has an empty tree answer, the
    lookup of G3 answers 503, the lookup of G4 times out, the tree request
    of G5 answers 404 and that of any other gene fails in transport. *)
Definition sample_remote : remote :=
  {| lookup := fun id =>
       if String.eqb id "G3" then Http 503 None
       else if String.eqb id "G4" then TimedOut
       else if String.eqb id "G1" then
         Http 200 (Some (JDict [("display_name", JStr "foo")]))
       else Http 200 (Some (JDict [("id", JStr id)]));
     genetree := fun id symbol =>
       if String.eqb id "G1" then Http 200 (Some sample_tree)
       else if String.eqb id "G2" then Http 200 (Some (JList []))
       else if String.eqb id "G5" then Http 404 None
       else ConnectionFailed;
     writes_csv := fun symbol rows => true;
     writes_txt := fun symbol => true |}.

Definition fresh : world := start Missing.

(** A remote service where every lookup succeeds and no gene has a tree. *)
Definition healthy_remote : remote :=
  {| lookup := fun id => Http 200 (Some (JDict [("id", JStr id)]));
     genetree := fun id symbol => Http 200 (Some (JList []));
     writes_csv := fun symbol rows => true;
     writes_txt := fun symbol => true |}.

End Samples.

(** ** The gene list: the rows read by [process_all_gene_trees] *)

Module GeneList.
Import Engine.

(** [a or b] on fields: [None] and the empty string are false. *)
Definition py_or (a b : option string) : option string :=
  match a with
  | Some s => if String.eqb s "" then b else a
  | None => b
  end.

(** [a or b] where [b] is a string known to be true. *)
Definition or_else (a : option string) (b : string) : string :=
  match a with
  | Some s => if String.eqb s "" then b else s
  | None => b
  end.

(** Lines 193-203 on one row of [csv.DictReader]: the row maps a column
    name to its field, and [row.get] of a column that the row lacks is
    [None].  A row without an id gives no gene (line 198, [continue]). *)
Definition row_gene (row : gmap string string) : option gene :=
  let gene_id :=
    py_or (py_or (row !! "gene_id") (row !! "ensembl_id"))
          (row !! "WBGeneID") in
  match gene_id with
  | Some id =>
      if String.eqb id "" then None
      else
        let gene_symbol :=
          or_else (py_or (row !! "gene_symbol") (row !! "symbol")) id in
        Some (Gene id gene_symbol)
  | None => None
  end.

(** The loop of lines 189-203: [anole_genes] after the file is read. *)
Definition read_anole_genes (rows : list (gmap string string)) : list gene :=
  omap row_gene rows.

End GeneList.

(** ** [Anole_protein-coding_genes_fetch.py] *)

Module Biomart.

(** A Python [str] is a Rocq string holding its UTF-8 bytes. *)

(** [s.split(sep)] for a one-character separator. *)
Fixpoint split_on (sep : ascii) (s : string) : list string :=
  match s with
  | EmptyString => [EmptyString]
  | String c rest =>
      if Ascii.eqb c sep then EmptyString :: split_on sep rest
      else match split_on sep rest with
           | first :: others => String c first :: others
           | [] => [String c EmptyString]
           end
  end.

(** [sep.join(parts)]. *)
Fixpoint join (sep : ascii) (parts : list string) : string :=
  match parts with
  | [] => EmptyString
  | [p] => p
  | p :: rest => (p ++ String sep (join sep rest))%string
  end.

Definition byte_in (lo hi : nat) (c : ascii) : bool :=
  (lo <=? nat_of_ascii c)%nat && (nat_of_ascii c <=? hi)%nat.

Definition byte_is (n : nat) (c : ascii) : bool := byte_in n n c.

(** The characters that [str.strip()] removes: U+0009..U+000D,
    U+001C..U+0020, then U+0085 and U+00A0 (two bytes), then U+1680,
    U+2000..U+200A, U+2028, U+2029, U+202F, U+205F and U+3000 (three
    bytes). *)
Definition space1 (c : ascii) : bool := byte_in 9 13 c || byte_in 28 32 c.

Definition space2 (c1 c2 : ascii) : bool :=
  byte_is 194 c1 && (byte_is 133 c2 || byte_is 160 c2).

Definition space3 (c1 c2 c3 : ascii) : bool :=
  (byte_is 225 c1 && byte_is 154 c2 && byte_is 128 c3) ||
  (byte_is 226 c1 && byte_is 128 c2 &&
     (byte_in 128 138 c3 || byte_is 168 c3 || byte_is 169 c3
      || byte_is 175 c3)) ||
  (byte_is 226 c1 && byte_is 129 c2 && byte_is 159 c3) ||
  (byte_is 227 c1 && byte_is 128 c2 && byte_is 128 c3).

(** Remove the spaces at the head of [s]; with [backwards] the bytes of
    [s] are in reverse order. *)
Fixpoint drop_spaces (backwards : bool) (s : string) : string :=
  match s with
  | String a rest =>
      if space1 a then drop_spaces backwards rest
      else
        match rest with
        | String b rest2 =>
            if (if backwards then space2 b a else space2 a b)
            then drop_spaces backwards rest2
            else
              match rest2 with
              | String c rest3 =>
                  if (if backwards then space3 c b a else space3 a b c)
                  then drop_spaces backwards rest3
                  else s
              | EmptyString => s
              end
        | EmptyString => s
        end
  | EmptyString => s
  end.

Fixpoint string_rev (s : string) : string :=
  match s with
  | EmptyString => EmptyString
  | String c rest => (string_rev rest ++ String c EmptyString)%string
  end.

(** [s.strip()]. *)
Definition strip (s : string) : string :=
  string_rev (drop_spaces true (string_rev (drop_spaces false s))).

(** One dict of the list built at lines 40-44. *)
Record biomart_gene : Type := BiomartGene {
  ensembl_id : string;
  gene_symbol : string;
  biotype : string
}.

(** What [requests.get] does at line 20. *)
Inductive biomart_response : Type :=
| Unreachable                             (* requests.get raises *)
| Answer (status_code : Z) (text : string).

Definition tab : ascii := "009"%char.
Definition newline : ascii := "010"%char.

(** The body of the loop of lines 33-44 on one line. *)
Definition parse_line (line : string) : option biomart_gene :=
  match split_on tab line with
  | [gene_id; gene_name; biotype] =>
      if String.eqb biotype "protein_coding"
      then Some (BiomartGene gene_id gene_name biotype)
      else None
  | _ => None
  end.

(** [fetch_green_anole_genes] (lines 4-53); [None] is Python's [None].
    [raise_for_status] raises for a status in 400..599 and the handler of
    line 49 returns [None]. *)
Definition fetch_green_anole_genes (response : biomart_response)
  : option (list biomart_gene) :=
  match response with
  | Unreachable => None
  | Answer status_code text =>
      if (400 <=? status_code) && (status_code <? 600) then None
      else
        let lines := split_on newline (strip text) in
        match lines with
        | header :: line :: more => Some (omap parse_line (line :: more))
        | _ => None
        end
  end.

(** The rows that [create_gene_csv] hands to [writer.writerow]
    (lines 61-66), below the header [gene_id, gene_symbol, ensembl_id]. *)
Definition create_gene_csv (genes : list biomart_gene)
  : list (gmap string string) :=
  map (fun gene => {[ "gene_id" := ensembl_id gene;
                      "gene_symbol" := gene_symbol gene;
                      "ensembl_id" := ensembl_id gene ]}) genes.


End Biomart.

(** ** More sample remote services *)

Module MoreSamples.
Import Flattener Engine Samples.

(** A remote service with unusual answers.  Lookup: E1 answers 200 with an
    empty object, E2 answers 204, any other gene answers 200 with a null
    [display_name].  Tree: E3 answers 201, E4 answers 200 with [[null]],
    E5 answers 200 with a tree without leaves, any other gene answers 200
    with the sample tree. *)
Definition odd_remote : remote :=
  {| lookup := fun id =>
       if String.eqb id "E1" then Http 200 (Some (JDict []))
       else if String.eqb id "E2" then
         Http 204 (Some (JDict [("display_name", JStr "x")]))
       else Http 200 (Some (JDict [("display_name", JNull)]));
     genetree := fun id symbol =>
       if String.eqb id "E3" then Http 201 (Some sample_tree)
       else if String.eqb id "E4" then Http 200 (Some (JList [JNull]))
       else if String.eqb id "E5" then
         Http 200 (Some (JDict [("tree", JDict [("children", JList [])])]))
       else Http 200 (Some sample_tree);
     writes_csv := fun symbol rows => true;
     writes_txt := fun symbol => true |}.

(** A remote service that names every gene "A/B", a name under which no
    file can be opened.  Tree: S1 has the sample tree, S2 a tree without
    leaves, S3 answers 404, any other gene answers 200 with an empty list.
    Lookup: T1 times out, any other gene answers 200. *)
Definition slash_remote : remote :=
  {| lookup := fun id =>
       if String.eqb id "T1" then TimedOut
       else Http 200 (Some (JDict [("display_name", JStr "A/B")]));
     genetree := fun id symbol =>
       if String.eqb id "S1" then Http 200 (Some sample_tree)
       else if String.eqb id "S2" then
         Http 200 (Some (JDict [("tree", JDict [("children", JList [])])]))
       else if String.eqb id "S3" then Http 404 None
       else Http 200 (Some (JList []));
     writes_csv := fun symbol rows => negb (str_equals "A/B" symbol);
     writes_txt := fun symbol => negb (str_equals "A/B" symbol) |}.

End MoreSamples.

(** ** Further observations on a run *)

Module RunObservations.
Import Flattener Engine Observations.

(** The identifiers of a list of genes. *)
Definition ids (genes : list gene) : list string := map gene_id genes.

(** The checkpoint records written, oldest first. *)
Definition checkpoints (events : list event) : list checkpoint_data :=
  omap (fun e => match e with WriteCheckpoint d => Some d | _ => None end)
       events.

(** The identifier was completed with a table: after the two requests the
    [.csv] file is written with [rows], then the checkpoint. *)
Definition completed_with_table (g : gene) (symbol : json) (rows : list row)
    (w w' : world) : Prop :=
  let d := CheckpointData (elements ({[gene_id g]} ∪ processed_genes w))
             (Some (gene_id g)) (Some (current_gene_number w + 1)) in
  trace w' = trace w ++ [GetGeneInfo (gene_id g);
                         GetGeneTree (gene_id g) symbol;
                         WriteCsv (gene_id g) symbol rows;
                         WriteCheckpoint d] ∧
  processed_genes w' = {[gene_id g]} ∪ processed_genes w ∧
  last_processed_gene w' = Some (gene_id g) ∧
  checkpoint_json w' = Document d ∧
  current_gene_number w' = current_gene_number w + 1.

(** [f] appends: what it adds, and whether it raises, does not depend on the
    rows gathered before. *)
Definition appends (f : list row → result (list row)) : Prop :=
  ∀ acc, f acc = (rows ← f []; Ok (acc ++ rows)).

(** A value that is neither a mapping, a list nor a string. *)
Definition is_scalar (x : json) : bool :=
  match x with
  | JNull | JBool _ | JNum _ => true
  | _ => false
  end.

Definition is_remote_call (e : event) : bool :=
  match e with
  | GetGeneInfo _ | GetGeneTree _ _ => true
  | _ => false
  end.

(** The remote requests among the events, oldest first. *)
Definition remote_calls (events : list event) : list event :=
  filter is_remote_call events.

Definition is_checkpoint_write (e : event) : bool :=
  match e with
  | WriteCheckpoint _ => true
  | _ => false
  end.

(** The remote requests and the artifact writes among the events, that is
    everything but the checkpoint writes, oldest first. *)
Definition work (events : list event) : list event :=
  filter (fun e => negb (is_checkpoint_write e)) events.

(** The body of a 200 answer is a non-empty JSON object. *)
Definition nonempty_object (body : option json) : bool :=
  match body with
  | Some (JDict (_ :: _)) => true
  | _ => false
  end.

(** The symbol that names the gene after a primary lookup that returned
    the object [info]: its [display_name], whatever its value, or else the
    symbol of the gene list. *)
Definition effective_symbol (g : gene) (info : list (string * json)) : json :=
  from_option id (JStr (gene_symbol g)) (dict_get "display_name" info).

(** A field that [if not x] takes for false: missing or empty. *)
Definition falsy (field : option string) : Prop :=
  field = None ∨ field = Some "".

(** The character [c] occurs in [s]. *)
Fixpoint has_char (c : ascii) (s : string) : bool :=
  match s with
  | EmptyString => false
  | String c' rest => Ascii.eqb c' c || has_char c rest
  end.

End RunObservations.

(** ** Observations on the gene table *)

Module TableObservations.
Import Engine Biomart RunObservations.

(** The line of the BioMart answer that holds a gene. *)
Definition table_line (g : biomart_gene) : string :=
  join tab [ensembl_id g; Biomart.gene_symbol g; biotype g].

(** A field without a tab and without a newline. *)
Definition clean_field (s : string) : bool :=
  negb (has_char tab s) && negb (has_char newline s).

Definition clean_gene (g : biomart_gene) : bool :=
  clean_field (ensembl_id g) && clean_field (Biomart.gene_symbol g)
  && clean_field (biotype g).

(** The entry of the gene list that a gene of the table becomes: its symbol
    is its name, or its id when it has no name. *)
Definition sample_table_genes : list biomart_gene :=
  [BiomartGene "ENS1" "abc" "protein_coding";
   BiomartGene "ENS2" "" "lncRNA";
   BiomartGene "" "orphan" "protein_coding"].

Definition sample_table : string :=
  join newline ("Gene stable ID" :: map table_line sample_table_genes).

Definition listed_gene (g : biomart_gene) : gene :=
  Gene (ensembl_id g)
       (if String.eqb (Biomart.gene_symbol g) ""
        then ensembl_id g else Biomart.gene_symbol g).

End TableObservations.

(** * Properties *)

(** ** Flattener *)

Module FlattenerProofs.
Import Flattener Samples.

(** Induction on a tree with the hypothesis for every child. *)
Lemma node_ind' (P : node → Prop)
    (HLeaf : ∀ fields, P (Leaf fields))
    (HInternal : ∀ fields children,
        Forall P children → P (Internal fields children)) :
  ∀ t, P t.
Proof.
  fix go 1. intros [fields children | fields].
  - apply HInternal. induction children as [| c cs IH]; constructor.
    + apply go.
    + exact IH.
  - apply HLeaf.
Qed.

Lemma for_each_app {A S} (body : A → S → result S) xs ys acc :
  for_each body (xs ++ ys) acc = (acc' ← for_each body xs acc; for_each body ys acc').
Proof.
  revert acc. induction xs as [| x xs IH]; intros acc; simpl; [done |].
  destruct (body x acc) as [acc' | e]; simpl; [apply IH | done].
Qed.

Lemma for_each_ext {A S} (f g : A → S → result S) xs acc :
  Forall (fun x => ∀ a, f x a = g x a) xs →
  for_each f xs acc = for_each g xs acc.
Proof.
  intros H. revert acc. induction H as [| x xs Hx _ IH]; intros acc; simpl.
  - done.
  - rewrite Hx. destruct (g x acc); simpl; [apply IH | done].
Qed.

Lemma traverse_tree_str s acc :
  traverse_tree (JStr s) acc = traverse_scalar (JStr s) acc.
Proof. reflexivity. Qed.

Lemma traverse_scalar_str self s acc :
  traverse_step self (JStr s) acc = traverse_scalar (JStr s) acc.
Proof.
  unfold traverse_scalar, traverse_step. simpl.
  destruct (is_substring "children" s); reflexivity.
Qed.

(** The scan of [traverse_tree] over the pairs of a dict is the lookup of
    the [children] key. *)
Lemma traverse_tree_dict kvs acc :
  traverse_tree (JDict kvs) acc =
  match dict_get "children" kvs with
  | Some (JList cs) => for_each traverse_tree cs acc
  | Some v => xs ← py_iter v; for_each traverse_scalar xs acc
  | None => extract_leaf (JDict kvs) acc
  end.
Proof.
  simpl. generalize (extract_leaf (JDict kvs) acc). intros leaf.
  induction kvs as [| [k v] rest IH]; simpl; [done |].
  destruct (String.eqb k "children"); [| exact IH].
  destruct v; reflexivity.
Qed.

(** [traverse_tree] is the body of the source function applied to itself. *)
Lemma traverse_tree_unfold node acc :
  traverse_tree node acc = traverse_step traverse_tree node acc.
Proof.
  destruct node as [| b | z | s | l | kvs];
    try reflexivity.
  rewrite traverse_tree_dict. unfold traverse_step. simpl.
  destruct (dict_get "children" kvs) as [v |] eqn:Hc; simpl; [| reflexivity].
  destruct v as [| b | z | s | l | kvs']; simpl; try reflexivity.
  - apply for_each_ext. clear Hc.
    induction s as [| c s IH]; simpl; constructor;
      first [reflexivity | exact IH].
  - apply for_each_ext. clear Hc.
    induction kvs' as [| [k v] kvs' IH]; simpl; constructor;
      first [reflexivity | exact IH].
Qed.

Lemma extract_leaf_typed kvs acc :
  leaf_typed kvs = true →
  extract_leaf (JDict kvs) acc =
  Ok (if has_taxonomy kvs then acc ++ [ref_record kvs] else acc).
Proof.
  unfold leaf_typed, has_taxonomy, extract_leaf, ref_record, nested_get.
  simpl. intros [Ht Hm]%andb_true_iff.
  destruct (dict_get "taxonomy" kvs) as [tax |]; simpl; [| reflexivity].
  destruct tax; try discriminate Ht. simpl.
  destruct (dict_get "gene_member" kvs) as [member |]; simpl; [| reflexivity].
  destruct member; try discriminate Hm. reflexivity.
Qed.

Lemma traverse_encoded t :
  ∀ j acc,
    encodes t j →
    Forall (fun f => leaf_typed f = true) (ref_leaves t) →
    traverse_tree j acc =
    Ok (acc ++ map ref_record (filter has_taxonomy (ref_leaves t))).
Proof.
  induction t as [fields | fields children IH] using node_ind';
    intros j acc Henc Htyped; inversion Henc as [kvs Hc | kvs cs js Hc Hall];
    subst; rewrite traverse_tree_dict, Hc.
  - apply Forall_inv in Htyped. rewrite extract_leaf_typed by done.
    simpl. rewrite filter_cons, filter_nil.
    destruct (has_taxonomy fields); simpl; [reflexivity |].
    by rewrite app_nil_r.
  - simpl in Htyped. clear Hc Henc. revert acc.
    induction Hall as [| c j cs js Hcj _ IHall]; intros acc; simpl.
    + by rewrite app_nil_r.
    + apply Forall_app in Htyped as [Htc Htcs].
      apply Forall_cons in IH as [IHc IHcs].
      rewrite (IHc j acc Hcj Htc). simpl.
      rewrite (IHall IHcs Htcs), filter_app, map_app, app_assoc.
      reflexivity.
Qed.

(** C3, as stated, fails: a node without [children] and without [taxonomy]
    is a leaf, yet [traverse_tree] emits no record for it, where the claim
    wants one record ("L3", "N/A", "N/A"). *)
Lemma leaf_without_taxonomy_is_omitted :
  dict_get "children" leaf_bare = None ∧
  process_gene_tree_data (JDict [("tree", JDict leaf_bare)]) = Ok [] ∧
  ref_record leaf_bare = Row (JStr "L3") (JStr "N/A") (JStr "N/A") ∧
  process_gene_tree_data (JDict [("tree", JDict leaf_bare)])
    ≠ Ok [ref_record leaf_bare].
Proof. repeat split; try reflexivity. discriminate. Qed.

(** C3, amended: for a node without a [children] field whose [taxonomy]
    and [gene_member], where present, are objects, [traverse_tree] appends
    exactly one record when the node has a [taxonomy] field, with "N/A" for
    each of id, gene_member.display_name and taxonomy.scientific_name that
    is absent, and appends nothing when the node has no [taxonomy] field. *)
Theorem leaf_yields_one_record_if_taxonomy kvs acc :
  dict_get "children" kvs = None →
  leaf_typed kvs = true →
  traverse_tree (JDict kvs) acc =
  Ok (if has_taxonomy kvs then acc ++ [ref_record kvs] else acc).
Proof.
  intros Hc Ht. rewrite traverse_tree_dict, Hc. by apply extract_leaf_typed.
Qed.

Lemma leaf_yields_one_record_if_taxonomy_witness :
  traverse_tree (JDict leaf_B) [] =
  Ok [Row (JStr "L2") (JStr "N/A") (JStr "Species B")].
Proof.
  exact (leaf_yields_one_record_if_taxonomy leaf_B [] eq_refl eq_refl).
Defined.

(** C6, as stated, fails: on a tree with the two leaves [leaf_bare] and
    [leaf_B] the reference enumeration has two records and the code
    returns one. *)
Lemma flatten_differs_from_reference :
  let kvs := [("children", JList [JDict leaf_bare; JDict leaf_B])] in
  let t := Internal kvs [Leaf leaf_bare; Leaf leaf_B] in
  let j := JDict kvs in
  encodes t j ∧
  process_gene_tree_data (JDict [("tree", j)]) =
    Ok [Row (JStr "L2") (JStr "N/A") (JStr "Species B")] ∧
  process_gene_tree_data (JDict [("tree", j)]) ≠ Ok (ref_flatten t).
Proof.
  repeat split.
  - apply encodes_internal with
      (js := [JDict leaf_bare; JDict leaf_B]); [reflexivity |].
    repeat constructor.
  - discriminate.
Qed.

(** C6, amended: for every tree whose leaves are well typed, the flattener
    returns, in depth-first left-to-right order, the reference records of
    exactly those leaves of the reference enumeration that have a
    [taxonomy] field; the fields of internal nodes contribute nothing. *)
Theorem flatten_is_leaf_enumeration t j envelope :
  encodes t j →
  Forall (fun f => leaf_typed f = true) (ref_leaves t) →
  dict_get "tree" envelope = Some j →
  process_gene_tree_data (JDict envelope) =
  Ok (map ref_record (filter has_taxonomy (ref_leaves t))).
Proof.
  intros Henc Htyped Hroot. unfold process_gene_tree_data. rewrite Hroot.
  by rewrite (traverse_encoded t j [] Henc Htyped).
Qed.

Lemma flatten_is_leaf_enumeration_witness :
  process_gene_tree_data (JDict [("tree", JDict sample_root)])
  = Ok [Row (JStr "L1") (JStr "GeneA") (JStr "Species A");
        Row (JStr "L2") (JStr "N/A") (JStr "Species B")].
Proof.
  apply (flatten_is_leaf_enumeration
           (Internal sample_root
              [Leaf leaf_A; Internal sample_inner [Leaf leaf_bare; Leaf leaf_B]])
           (JDict sample_root) [("tree", JDict sample_root)]).
  - eapply encodes_internal; [reflexivity |].
    constructor; [by constructor |].
    constructor; [| constructor].
    eapply encodes_internal; [reflexivity |].
    repeat constructor.
  - repeat constructor.
  - reflexivity.
Defined.

(** C7, as stated, fails: a two-element list is not a single-element list
    wrapping an envelope, yet the flattener unwraps its first element
    instead of returning the empty sequence. *)
Lemma longer_list_is_unwrapped :
  process_gene_tree_data (JList [JDict [("tree", JDict leaf_B)]; JNum 7]) =
    Ok [Row (JStr "L2") (JStr "N/A") (JStr "Species B")] ∧
  process_gene_tree_data (JList [JDict [("tree", JDict leaf_B)]; JNum 7])
    ≠ Ok [].
Proof. split; [reflexivity | discriminate]. Qed.

(** C7, amended: on null the flattener returns the empty sequence; on a
    non-empty list whose first element is a mapping with a [tree] field
    (whatever follows it), or on a mapping with a [tree] field, it
    traverses the wrapped root; on an empty list, on a mapping without
    [tree], on a list whose first element is a mapping without [tree] and
    on a number, string or boolean it returns the empty sequence. *)
Theorem flatten_unwraps_envelope gene_tree_info :
  envelope_shape gene_tree_info = true →
  process_gene_tree_data gene_tree_info =
  match wrapped_root gene_tree_info with
  | Some root => traverse_tree root []
  | None => Ok []
  end.
Proof.
  destruct gene_tree_info as [| b | z | s | l | kvs]; try reflexivity.
  destruct l as [| first rest]; [reflexivity |].
  destruct first as [| | | | | kvs]; try discriminate. intros _. simpl.
  destruct (dict_get "tree" kvs); reflexivity.
Qed.

Lemma flatten_unwraps_envelope_witness :
  process_gene_tree_data JNull = Ok [] ∧
  process_gene_tree_data (JList [JDict [("tree", JDict leaf_B)]]) =
    traverse_tree (JDict leaf_B) [] ∧
  process_gene_tree_data (JDict [("tree", JDict leaf_B)]) =
    traverse_tree (JDict leaf_B) [] ∧
  process_gene_tree_data (JList [JDict [("other", JNull)]]) = Ok [].
Proof.
  split; [exact (flatten_unwraps_envelope JNull eq_refl) |].
  split; [exact (flatten_unwraps_envelope
                   (JList [JDict [("tree", JDict leaf_B)]]) eq_refl) |].
  split; [exact (flatten_unwraps_envelope
                   (JDict [("tree", JDict leaf_B)]) eq_refl) |].
  exact (flatten_unwraps_envelope (JList [JDict [("other", JNull)]]) eq_refl).
Defined.

End FlattenerProofs.

(** ** Checkpoint store *)

Module CheckpointProofs.
Import Flattener Engine Samples.

(** C10: for every processed set, last identifier (or null) and integer
    position, [load_checkpoint] on the file left by [save_checkpoint]
    returns the same set, the same last identifier and the same position;
    and [load_checkpoint] on a stored record without the position key
    returns position 0. *)
Theorem save_then_load_checkpoint :
  (∀ (processed : gset string) (last : option string) (position : Z)
     (old : file) (events : list event),
      load_checkpoint
        (checkpoint_json
           (save_checkpoint processed
              (World last processed position old events)))
      = Ok (processed, last, position)) ∧
  (∀ (stored : list string) (last : option string),
      load_checkpoint (Document (CheckpointData stored last None))
      = Ok (list_to_set stored, last, 0)).
Proof.
  split; [| reflexivity].
  intros processed last position old events. simpl.
  by rewrite list_to_set_elements_L.
Qed.

(** C8, as stated, fails: a crash after [open('checkpoint.json', 'w')] and
    before the dump has finished leaves a file that is neither the previous
    state nor the new one, and that [load_checkpoint] cannot read. *)
Lemma crash_after_open_tears_checkpoint :
  let w := world_after_G2 in
  let crashed := save_checkpoint_until AfterOpen (processed_genes w) w in
  checkpoint_json crashed ≠ checkpoint_json w ∧
  checkpoint_json crashed
    ≠ checkpoint_json (save_checkpoint (processed_genes w) w) ∧
  load_checkpoint (checkpoint_json crashed) = Raise JSONDecodeError.
Proof. repeat split; discriminate. Qed.

(** C8, amended: [save_checkpoint] overwrites the file in place.  A crash
    before the file is opened leaves the previous state; a save that runs to
    its end leaves exactly the new state; a crash in between leaves a file
    that [load_checkpoint] cannot read. *)
Theorem save_checkpoint_overwrites_in_place
    (p : save_point) (processed : gset string) (w : world) :
  let durable := checkpoint_json (save_checkpoint_until p processed w) in
  match p with
  | BeforeOpen => durable = checkpoint_json w
  | AfterOpen => load_checkpoint durable = Raise JSONDecodeError
  | AfterDump =>
      durable = checkpoint_json (save_checkpoint processed w) ∧
      load_checkpoint durable
      = Ok (processed, last_processed_gene w, current_gene_number w)
  end.
Proof.
  destruct p; simpl; try reflexivity.
  split; [reflexivity |]. by rewrite list_to_set_elements_L.
Qed.

End CheckpointProofs.

(** ** Batch engine *)

Module EngineProofs.
Import Flattener Engine Observations Samples.

Ltac unfold_engine :=
  unfold process_gene, try_body, fetch_gene_info, fetch_gene_tree_info,
    write_csv, write_txt,
    act, lift, read, mbind, M_bind, mret, M_ret; simpl.

Ltac observe :=
  unfold given_up, completed_without_data, save_checkpoint,
    save_checkpoint_until, checkpoint_record, log, set_checkpoint_json,
    set_last_processed_gene, set_processed_genes, set_current_gene_number;
  simpl; rewrite <- ?app_assoc; simpl.

(** Case analysis on whether the write blocks of the goal run to their
    end. *)
Ltac case_writes :=
  repeat match goal with
         | |- context [writes_txt ?r ?s] => destruct (writes_txt r s); simpl
         | |- context [writes_csv ?r ?s ?l] =>
             destruct (writes_csv r s l); simpl
         end.

(** Give the events that an iteration has added. *)
Ltac close_events :=
  first [ eexists [_]; observe; by split
        | eexists [_; _]; observe; by split
        | eexists [_; _; _]; observe; by split
        | eexists [_; _; _; _]; observe; by split ].

Lemma non_2xx_not_200 status : non_2xx status → (status =? 200) = false.
Proof. unfold non_2xx. intros H. apply Z.eqb_neq. lia. Qed.

Lemma primary_non_200 r g w status body :
  gene_id g ∉ processed_genes w →
  lookup r (gene_id g) = Http status body →
  (status =? 200) = false →
  given_up [GetGeneInfo (gene_id g)] w (process_gene r g w).
Proof.
  intros Hnew Hresp Hstatus. unfold_engine.
  rewrite bool_decide_eq_false_2 by done.
  rewrite Hresp, Hstatus. simpl. observe. by repeat split.
Qed.



Lemma dependent_no_data r g w symbol :
  gene_id g ∉ processed_genes w →
  primary_names r g symbol →
  no_data_response (genetree r (gene_id g) symbol) = true →
  writes_txt r symbol = true →
  completed_without_data g symbol w (process_gene r g w).
Proof.
  intros Hnew (info & Hresp & Htruthy & Hsym) Hnone Hwrite. unfold_engine.
  rewrite bool_decide_eq_false_2 by done.
  rewrite Hresp. simpl. rewrite Htruthy. simpl. rewrite Hsym. simpl.
  destruct (genetree r (gene_id g) symbol) as [| | status body];
    try discriminate; simpl in *.
  destruct (status =? 200); simpl.
  - destruct body as [j |]; [| discriminate].
    apply negb_true_iff in Hnone. simpl. rewrite Hnone, Hwrite. observe.
    by repeat split.
  - rewrite Hwrite. observe. by repeat split.
Qed.

Lemma dependent_no_data_unwritable r g w symbol :
  gene_id g ∉ processed_genes w →
  primary_names r g symbol →
  no_data_response (genetree r (gene_id g) symbol) = true →
  writes_txt r symbol = false →
  given_up [GetGeneInfo (gene_id g); GetGeneTree (gene_id g) symbol;
            WriteFailed (gene_id g) symbol] w (process_gene r g w).
Proof.
  intros Hnew (info & Hresp & Htruthy & Hsym) Hnone Hwrite. unfold_engine.
  rewrite bool_decide_eq_false_2 by done.
  rewrite Hresp. simpl. rewrite Htruthy. simpl. rewrite Hsym. simpl.
  destruct (genetree r (gene_id g) symbol) as [| | status body];
    try discriminate; simpl in *.
  destruct (status =? 200); simpl.
  - destruct body as [j |]; [| discriminate].
    apply negb_true_iff in Hnone. simpl. rewrite Hnone, Hwrite. observe.
    by repeat split.
  - rewrite Hwrite. observe. by repeat split.
Qed.

Lemma requested_app xs ys :
  requested (xs ++ ys) = requested xs ++ requested ys.
Proof. apply omap_app. Qed.

Lemma requested_info id events :
  requested (GetGeneInfo id :: events) = id :: requested events.
Proof. reflexivity. Qed.

Lemma artifacts_app xs ys :
  artifacts (xs ++ ys) = artifacts xs ++ artifacts ys.
Proof. apply omap_app. Qed.

Lemma artifacts_info id events :
  artifacts (GetGeneInfo id :: events) = artifacts events.
Proof. reflexivity. Qed.

Lemma skip_step r g w :
  gene_id g ∈ processed_genes w →
  trace (process_gene r g w) = trace w ∧
  checkpoint_json (process_gene r g w) = checkpoint_json w ∧
  processed_genes (process_gene r g w) = processed_genes w ∧
  last_processed_gene (process_gene r g w) = last_processed_gene w ∧
  current_gene_number (process_gene r g w) = current_gene_number w + 1.
Proof.
  intros Hdone. unfold process_gene. simpl.
  by rewrite bool_decide_eq_true_2.
Qed.

(** One iteration on an identifier that is not in the processed set: the
    primary lookup is requested once, and either nothing is recorded or an
    artifact is written and the identifier is recorded and saved. *)
Lemma process_gene_new r g w :
  gene_id g ∉ processed_genes w →
  ∃ events,
    trace (process_gene r g w) = trace w ++ GetGeneInfo (gene_id g) :: events ∧
    requested events = [] ∧
    current_gene_number (process_gene r g w) = current_gene_number w + 1 ∧
    ((artifacts events = [] ∧
      processed_genes (process_gene r g w) = processed_genes w ∧
      last_processed_gene (process_gene r g w) = last_processed_gene w ∧
      checkpoint_json (process_gene r g w) = checkpoint_json w) ∨
     (artifacts events = [gene_id g] ∧
      processed_genes (process_gene r g w)
        = {[gene_id g]} ∪ processed_genes w ∧
      last_processed_gene (process_gene r g w) = Some (gene_id g) ∧
      checkpoint_json (process_gene r g w)
        = Document (CheckpointData
                      (elements ({[gene_id g]} ∪ processed_genes w))
                      (Some (gene_id g))
                      (Some (current_gene_number w + 1))))).
Proof.
  intros Hnew. unfold_engine. rewrite bool_decide_eq_false_2 by done.
  destruct (lookup r (gene_id g)) as [| | status body]; simpl;
    try (exists []; observe; by auto 10).
  destruct (status =? 200); simpl; [| exists []; observe; by auto 10].
  destruct body as [info |]; simpl; [| exists []; observe; by auto 10].
  destruct (truthy info); simpl; [| exists []; observe; by auto 10].
  destruct (py_get info "display_name" (JStr (gene_symbol g)))
    as [symbol | e]; simpl; [| exists []; observe; by auto 10].
  destruct (genetree r (gene_id g) symbol) as [| | status' body']; simpl;
    try (exists [GetGeneTree (gene_id g) symbol]; observe; by auto 10).
  assert (Hmarker :
    ∃ events,
      trace (save_checkpoint ({[gene_id g]} ∪ processed_genes w)
        (set_last_processed_gene (Some (gene_id g))
          (set_processed_genes ({[gene_id g]} ∪ processed_genes w)
            (log (WriteTxt (gene_id g) symbol)
              (log (GetGeneTree (gene_id g) symbol)
                (log (GetGeneInfo (gene_id g))
                  (set_current_gene_number (current_gene_number w + 1)
                     w)))))))
      = trace w ++ GetGeneInfo (gene_id g) :: events ∧
      requested events = [] ∧ artifacts events = [gene_id g]).
  { eexists [_; _; _]. observe. by auto. }
  assert (Hfailed :
    ∃ events,
      trace (log (WriteFailed (gene_id g) symbol)
              (log (GetGeneTree (gene_id g) symbol)
                (log (GetGeneInfo (gene_id g))
                  (set_current_gene_number (current_gene_number w + 1) w))))
      = trace w ++ GetGeneInfo (gene_id g) :: events ∧
      requested events = [] ∧ artifacts events = []).
  { eexists [_; _]. observe. by auto. }
  destruct (status' =? 200); simpl.
  - destruct body' as [tree |]; simpl;
      [| exists [GetGeneTree (gene_id g) symbol]; observe; by auto 10].
    destruct (truthy tree); simpl.
    + destruct (process_gene_tree_data tree) as [[| row rows] | e]; simpl.
      * destruct (writes_txt r symbol); simpl.
        -- destruct Hmarker as (events & ? & ? & ?). exists events.
           by auto 10.
        -- destruct Hfailed as (events & ? & ? & ?). exists events.
           by auto 10.
      * destruct (writes_csv r symbol (row :: rows)); simpl.
        -- eexists [_; _; _]. observe. by auto 10.
        -- destruct Hfailed as (events & ? & ? & ?). exists events.
           by auto 10.
      * exists [GetGeneTree (gene_id g) symbol]. observe. by auto 10.
    + destruct (writes_txt r symbol); simpl.
      * destruct Hmarker as (events & ? & ? & ?). exists events. by auto 10.
      * destruct Hfailed as (events & ? & ? & ?). exists events. by auto 10.
  - destruct (writes_txt r symbol); simpl.
    + destruct Hmarker as (events & ? & ? & ?). exists events. by auto 10.
    + destruct Hfailed as (events & ? & ? & ?). exists events. by auto 10.
Qed.

(** C9, as stated, fails: the loop increments the position counter before
    it tests whether the identifier is in the processed set, so skipping
    an identifier changes the position. *)
Lemma skip_advances_position :
  let w := World (Some "G1") {["G1"]} 0 Missing [] in
  "G1" ∈ processed_genes w ∧
  current_gene_number (process_gene sample_remote (Gene "G1" "foo") w) = 1 ∧
  current_gene_number (process_gene sample_remote (Gene "G1" "foo") w)
    ≠ current_gene_number w.
Proof. split; [set_solver |]. split; [reflexivity | discriminate]. Qed.

(** C9, amended: an iteration on an identifier that is already in the
    processed set makes no remote call, writes no artifact and no
    checkpoint, and leaves the processed set and the last processed
    identifier as they are; it adds one to the position counter. *)
Theorem skip_only_advances_position r g w :
  gene_id g ∈ processed_genes w →
  trace (process_gene r g w) = trace w ∧
  checkpoint_json (process_gene r g w) = checkpoint_json w ∧
  processed_genes (process_gene r g w) = processed_genes w ∧
  last_processed_gene (process_gene r g w) = last_processed_gene w ∧
  current_gene_number (process_gene r g w) = current_gene_number w + 1.
Proof. apply skip_step. Qed.

Lemma skip_only_advances_position_witness :
  let w := World (Some "G1") {["G1"]} 0 Missing [] in
  let w' := process_gene sample_remote (Gene "G1" "foo") w in
  trace w' = [] ∧ checkpoint_json w' = Missing ∧
  processed_genes w' = {["G1"]} ∧ last_processed_gene w' = Some "G1" ∧
  current_gene_number w' = 1.
Proof.
  assert (Hdone : "G1" ∈ ({["G1"]} : gset string)) by set_solver.
  exact (skip_only_advances_position sample_remote (Gene "G1" "foo")
           (World (Some "G1") {["G1"]} 0 Missing []) Hdone).
Defined.

(** *** The loop over the gene list *)

Lemma process_gene_batch_app r done rest w :
  process_gene_batch r (done ++ rest) w
  = process_gene_batch r rest (process_gene_batch r done w).
Proof. revert w. induction done as [| g done IH]; intros w; simpl; auto. Qed.

Lemma foldl_batches r bs w :
  foldl (fun w batch => process_gene_batch r batch w) w bs
  = process_gene_batch r (concat bs) w.
Proof.
  revert w. induction bs as [| b bs IH]; intros w; simpl; [done |].
  by rewrite IH, process_gene_batch_app.
Qed.

Lemma py_range_unfold a b step :
  0 < step →
  py_range a b step
  = if a <? b then a :: py_range (a + step) b step else [].
Proof.
  intros Hstep. unfold py_range. destruct (Z.ltb_spec a b) as [Hlt | Hge].
  - replace (b - a + step - 1) with ((b - (a + step) + step - 1) + 1 * step)
      by lia.
    rewrite Z.div_add by lia.
    assert (0 ≤ (b - (a + step) + step - 1) / step)
      by (apply Z.div_pos; lia).
    rewrite Z2Nat.inj_add by lia.
    rewrite Nat.add_comm. simpl. f_equal; [lia |].
    rewrite <- seq_shift, map_map. apply map_ext. intros k. lia.
  - assert ((b - a + step - 1) / step < 1)
      by (apply Z.div_lt_upper_bound; lia).
    replace (Z.to_nat ((b - a + step - 1) / step)) with 0%nat by lia.
    reflexivity.
Qed.

Lemma take_min_drop {A} (l : list A) (k n : nat) :
  k = Nat.min n (length l) → take k l ++ drop n l = l.
Proof.
  intros ->. destruct (Nat.le_gt_cases n (length l)).
  - rewrite Nat.min_l by done. apply take_drop.
  - rewrite Nat.min_r by lia. rewrite take_ge, drop_ge by lia.
    apply app_nil_r.
Qed.

(** From a position inside the list, the batches of line 212 are the rest of
    the list. *)
Lemma concat_batches genes position :
  0 ≤ position →
  concat (batches genes position) = drop (Z.to_nat position) genes.
Proof.
  unfold batches. set (n := Z.of_nat (length genes)).
  assert (Hind : ∀ (m : nat) c, 0 ≤ c → n - c ≤ Z.of_nat m →
    concat (map (fun i => py_slice genes i (i + batch_size))
                (py_range c n batch_size))
    = drop (Z.to_nat c) genes).
  { induction m as [| m IH]; intros c Hc Hm;
      rewrite py_range_unfold by done;
      destruct (Z.ltb_spec c n) as [Hlt | Hge];
      try (simpl; rewrite drop_ge by lia; reflexivity); [lia |].
    simpl. rewrite IH by (unfold batch_size; lia).
    unfold py_slice, batch_size. fold n.
    rewrite (proj2 (Z.ltb_ge c 0)) by lia.
    rewrite (proj2 (Z.ltb_ge (c + 100) 0)) by lia.
    rewrite (Z.min_l c n) by lia.
    replace (Z.to_nat (c + 100)) with (Z.to_nat c + 100)%nat by lia.
    rewrite <- drop_drop. apply take_min_drop.
    rewrite length_drop. lia. }
  intros Hpos. apply (Hind (Z.to_nat (n - position))); lia.
Qed.

Lemma filter_ext_elem {A} (P1 P2 : A → Prop)
    `{!∀ x, Decision (P1 x), !∀ x, Decision (P2 x)} (l : list A) :
  (∀ x, x ∈ l → P1 x ↔ P2 x) → filter P1 l = filter P2 l.
Proof.
  induction l as [| a l IH]; intros Hiff; [done |].
  rewrite !filter_cons, IH by (intros; apply Hiff; by right).
  destruct (decide (P1 a)) as [H1 | H1], (decide (P2 a)) as [H2 | H2];
    try done; exfalso; apply (Hiff a) in H1 || apply (Hiff a) in H2;
    try done; by left.
Qed.

Lemma process_gene_requested r g w :
  requested (trace (process_gene r g w))
  = requested (trace w)
    ++ (if bool_decide (gene_id g ∈ processed_genes w) then []
        else [gene_id g]).
Proof.
  case_bool_decide as Hin.
  - destruct (skip_step r g w Hin) as [-> _]. by rewrite app_nil_r.
  - destruct (process_gene_new r g w Hin) as (events & -> & Hreq & _).
    by rewrite requested_app, requested_info, Hreq.
Qed.

Lemma process_gene_processed r g w :
  processed_genes (process_gene r g w) = processed_genes w ∨
  processed_genes (process_gene r g w) = {[gene_id g]} ∪ processed_genes w.
Proof.
  destruct (decide (gene_id g ∈ processed_genes w)) as [Hin | Hin].
  - left. by destruct (skip_step r g w Hin) as (_ & _ & -> & _).
  - destruct (process_gene_new r g w Hin)
      as (events & _ & _ & _ & [(_ & -> & _) | (_ & -> & _)]); auto.
Qed.

(** The identifiers that a loop over a duplicate-free list requests are
    those that are not in the processed set when the loop starts, in the
    order of the list. *)
Lemma process_gene_batch_requested r l :
  ∀ w,
    NoDup (map gene_id l) →
    requested (trace (process_gene_batch r l w))
    = requested (trace w)
      ++ map gene_id (filter (fun g => gene_id g ∉ processed_genes w) l).
Proof.
  induction l as [| g l IH]; intros w Hnodup; simpl.
  - by rewrite app_nil_r.
  - apply NoDup_cons in Hnodup as [Hfresh Hnodup].
    rewrite IH, process_gene_requested, <- app_assoc by done.
    f_equal. rewrite filter_cons.
    rewrite (filter_ext_elem
               (fun g' => gene_id g' ∉ processed_genes (process_gene r g w))
               (fun g' => gene_id g' ∉ processed_genes w)).
    + case_bool_decide; destruct (decide (gene_id g ∉ processed_genes w));
        done.
    + intros g' Hg'.
      assert (gene_id g' ≠ gene_id g).
      { intros Heq. apply Hfresh. rewrite <- Heq.
        by apply list_elem_of_fmap_2. }
      destruct (process_gene_processed r g w) as [-> | ->]; [done |].
      rewrite not_elem_of_union, not_elem_of_singleton. tauto.
Qed.

(** *** A run from a fresh process *)

Lemma resume_start f completed last position :
  load_checkpoint f = Ok (completed, last, position) →
  resume (start f) = (Ok tt, World None completed position f []).
Proof. intros Hload. unfold resume, mbind, M_bind. simpl. by rewrite Hload. Qed.

Lemma main_run r genes f completed last position :
  load_checkpoint f = Ok (completed, last, position) →
  main r genes f
  = let w := process_gene_batch r (visited genes position)
                                (World None completed position f []) in
    save_checkpoint (processed_genes w) w.
Proof.
  intros Hload. unfold main, process_all_gene_trees.
  unfold mbind at 1. unfold M_bind at 1.
  rewrite (resume_start f completed last position Hload).
  unfold_engine. by rewrite foldl_batches.
Qed.

(** A whole run is the state after all its identifiers, saved once more. *)
Lemma main_state_after r genes f completed last position :
  load_checkpoint f = Ok (completed, last, position) →
  main r genes f
  = signal_handler
      (state_after r genes f (length (visited genes position))).
Proof.
  intros Hload. rewrite (main_run r genes f completed last position Hload).
  unfold state_after.
  rewrite (resume_start f completed last position Hload). simpl.
  by rewrite firstn_all.
Qed.

Lemma NoDup_map_drop (genes : list gene) n :
  NoDup (map gene_id genes) → NoDup (map gene_id (drop n genes)).
Proof.
  change (NoDup (gene_id <$> genes) → NoDup (gene_id <$> drop n genes)).
  rewrite fmap_drop. intros Hnodup.
  eapply sublist_NoDup; [exact Hnodup | apply sublist_drop].
Qed.

(** C1, as stated, fails: G3 failed in a first run and is not in the
    processed set, the saved position is past it, and the next run starts
    at that position: it requests nothing, where the claim wants G3
    processed again. *)
Lemma failed_identifier_before_position_is_not_retried :
  let genes := [Gene "G3" "baz"; Gene "G2" "bar"] in
  let saved := checkpoint_json (main sample_remote genes Missing) in
  saved = Document (CheckpointData ["G2"] (Some "G2") (Some 2)) ∧
  requested (trace (main healthy_remote genes saved)) = [] ∧
  map gene_id (filter (fun g => gene_id g ∉ ({["G2"]} : gset string)) genes)
    = ["G3"] ∧
  requested (trace (main healthy_remote genes saved))
    ≠ map gene_id
        (filter (fun g => gene_id g ∉ ({["G2"]} : gset string)) genes).
Proof.
  assert (Hsaved :
    checkpoint_json
      (main sample_remote [Gene "G3" "baz"; Gene "G2" "bar"] Missing)
    = Document (CheckpointData ["G2"] (Some "G2") (Some 2)))
    by (vm_compute; reflexivity).
  cbv zeta. rewrite Hsaved.
  assert (Hnone :
    requested
      (trace (main healthy_remote [Gene "G3" "baz"; Gene "G2" "bar"]
                (Document (CheckpointData ["G2"] (Some "G2") (Some 2)))))
    = []) by (vm_compute; reflexivity).
  assert (Hleft :
    map gene_id
      (filter (fun g => gene_id g ∉ ({["G2"]} : gset string))
              [Gene "G3" "baz"; Gene "G2" "bar"])
    = ["G3"]) by (vm_compute; reflexivity).
  rewrite Hnone, Hleft. repeat split; discriminate.
Qed.

(** C1, amended: a run iterates the ordered identifier list from the
    position saved in the checkpoint (identifiers before it are not
    visited); from there on the decision to skip is membership in the
    processed set, so, for a list without duplicate identifiers and a
    non-negative position, the identifiers processed are exactly those at or
    after the position that are not in the loaded processed set, in
    original order, once each. *)
Theorem run_requests_unfinished_from_position
    r genes f completed last position :
  load_checkpoint f = Ok (completed, last, position) →
  0 ≤ position →
  NoDup (map gene_id genes) →
  requested (trace (main r genes f))
  = map gene_id
      (filter (fun g => gene_id g ∉ completed)
              (drop (Z.to_nat position) genes)).
Proof.
  intros Hload Hpos Hnodup.
  rewrite (main_run r genes f completed last position Hload). simpl.
  unfold save_checkpoint, log. simpl. rewrite requested_app. simpl.
  rewrite app_nil_r. unfold visited. rewrite concat_batches by done.
  rewrite process_gene_batch_requested by by apply NoDup_map_drop.
  reflexivity.
Qed.

Lemma run_requests_unfinished_from_position_witness :
  requested
    (trace (main sample_remote
              [Gene "G1" "foo"; Gene "G2" "bar"; Gene "G3" "baz";
               Gene "G5" "five"]
              (Document (CheckpointData ["G3"; "G2"] (Some "G2") (Some 1)))))
  = ["G5"].
Proof.
  refine (eq_trans
    (run_requests_unfinished_from_position sample_remote
       [Gene "G1" "foo"; Gene "G2" "bar"; Gene "G3" "baz"; Gene "G5" "five"]
       (Document (CheckpointData ["G3"; "G2"] (Some "G2") (Some 1)))
       (list_to_set ["G3"; "G2"]) (Some "G2") 1 eq_refl _ _) _).
  - lia.
  - apply (bool_decide_unpack (NoDup ["G1"; "G2"; "G3"; "G5"])).
    vm_compute. exact I.
  - vm_compute. reflexivity.
Defined.

(** *** The checkpoint between two identifiers *)

Lemma between_identifiers_start completed position f :
  between_identifiers completed position f 0
                      (World None completed position f []).
Proof.
  unfold between_identifiers. simpl. repeat split; auto with lia.
  by rewrite union_empty_r_L.
Qed.

Lemma between_identifiers_step r g completed position f k w :
  between_identifiers completed position f k w →
  between_identifiers completed position f (S k) (process_gene r g w).
Proof.
  intros (Hnum & Hset & Hlast & Hfile). unfold between_identifiers.
  destruct (decide (gene_id g ∈ processed_genes w)) as [Hin | Hin].
  - destruct (skip_step r g w Hin) as (-> & -> & -> & -> & ->).
    repeat split; [lia | done | done |].
    destruct Hfile as [? | (p & ? & ?)]; [by left |].
    right. exists p. split; [lia | done].
  - destruct (process_gene_new r g w Hin)
      as (events & -> & _ & -> & Hcases).
    rewrite artifacts_app, artifacts_info.
    destruct Hcases as [(-> & -> & -> & ->) | (-> & -> & -> & ->)].
    + rewrite app_nil_r. repeat split; [lia | done | done |].
      destruct Hfile as [? | (p & ? & ?)]; [by left |].
      right. exists p. split; [lia | done].
    + rewrite last_snoc, list_to_set_snoc_L, Hset.
      repeat split; [lia | | ].
      * rewrite (comm_L (∪) {[gene_id g]}). by rewrite (assoc_L (∪)).
      * right. exists (current_gene_number w + 1). split; [lia | done].
Qed.

Lemma between_identifiers_batch r completed position f l :
  ∀ k w,
    between_identifiers completed position f k w →
    between_identifiers completed position f (k + length l)
                        (process_gene_batch r l w).
Proof.
  induction l as [| g l IH]; intros k w Hinv; simpl.
  - by rewrite Nat.add_0_r.
  - replace (k + S (length l))%nat with (S k + length l)%nat by lia.
    by apply IH, between_identifiers_step.
Qed.




End EngineProofs.

(** ** More on the flattener *)

Module FlattenerExtra.
Import Flattener Samples RunObservations FlattenerProofs.

(** Induction on a payload with the hypothesis for every element of a list
    and every value of a dict. *)
Lemma json_ind' (P : json → Prop)
    (HNull : P JNull) (HBool : ∀ b, P (JBool b)) (HNum : ∀ z, P (JNum z))
    (HStr : ∀ s, P (JStr s))
    (HList : ∀ l, Forall P l → P (JList l))
    (HDict : ∀ kvs, Forall (fun kv => P kv.2) kvs → P (JDict kvs)) :
  ∀ j, P j.
Proof.
  fix go 1. intros [| b | z | s | l | kvs];
    [exact HNull | apply HBool | apply HNum | apply HStr | |].
  - apply HList. induction l as [| x l IH]; constructor; [apply go | exact IH].
  - apply HDict. induction kvs as [| [k v] kvs IH]; constructor;
      [apply go | exact IH].
Qed.

Lemma for_each_appends {A} (body : A → list row → result (list row)) xs :
  Forall (fun x => appends (body x)) xs → appends (for_each body xs).
Proof.
  induction 1 as [| x xs Hx _ IH]; intros acc; simpl.
  - by rewrite app_nil_r.
  - rewrite (Hx acc). destruct (body x []) as [rows | e]; simpl; [| done].
    rewrite (IH (acc ++ rows)), (IH rows).
    destruct (for_each body xs []) as [rows' | e]; simpl; [| done].
    by rewrite app_assoc.
Qed.

Lemma extract_leaf_appends node : appends (extract_leaf node).
Proof.
  intros acc. unfold extract_leaf.
  destruct (py_contains "taxonomy" node) as [[|] | e]; simpl;
    [| by rewrite app_nil_r | done].
  destruct (py_getitem node "taxonomy") as [tax | e]; simpl; [| done].
  destruct (py_get tax "scientific_name" (JStr "N/A")); simpl; [| done].
  destruct (py_get node "id" (JStr "N/A")); simpl; [| done].
  destruct (py_get node "gene_member" (JDict [])) as [m | e]; simpl; [| done].
  destruct (py_get m "display_name" (JStr "N/A")); simpl; done.
Qed.

Lemma traverse_scalar_str_appends s : appends (traverse_scalar (JStr s)).
Proof.
  intros acc. unfold traverse_scalar, traverse_step. simpl.
  destruct (is_substring "children" s); simpl; [done |].
  apply extract_leaf_appends.
Qed.

Lemma traverse_tree_appends_deep j :
  appends (traverse_tree j) ∧
  match j with
  | JList l => Forall (fun x => appends (traverse_tree x)) l
  | _ => True
  end.
Proof.
  induction j as [| b | z | s | l IH | kvs IH] using json_ind'.
  - split; [| done]. intros acc. reflexivity.
  - split; [| done]. intros acc. reflexivity.
  - split; [| done]. intros acc. reflexivity.
  - split; [| done]. apply traverse_scalar_str_appends.
  - split.
    + intros acc. simpl. unfold traverse_scalar, traverse_step. simpl.
      destruct (existsb (str_equals "children") l); simpl; [done |].
      apply extract_leaf_appends.
    + eapply Forall_impl; [exact IH |]. by intros x [Hx _].
  - split; [| done]. intros acc. rewrite !traverse_tree_dict.
    destruct (dict_get "children" kvs) as [v |] eqn:Hc;
      [| apply extract_leaf_appends].
    assert (Hv : appends (traverse_tree v) ∧
                 match v with
                 | JList l => Forall (fun x => appends (traverse_tree x)) l
                 | _ => True
                 end).
    { clear acc. induction kvs as [| [k v'] kvs IHk]; [discriminate |].
      apply Forall_cons in IH as [Hhead Htail]. simpl in Hc.
      destruct (String.eqb k "children"); [by inversion Hc; subst |].
      by apply IHk. }
    destruct v as [| b | z | s | l | kvs']; try reflexivity.
    + simpl. apply for_each_appends. clear.
      induction s as [| c s IHs]; simpl; constructor;
        [apply traverse_scalar_str_appends | exact IHs].
    + by apply for_each_appends, Hv.
    + simpl. apply for_each_appends. clear.
      induction kvs' as [| [k v] kvs' IHk]; simpl; constructor;
        [apply traverse_scalar_str_appends | exact IHk].
Qed.

(** X1: on every payload, well formed or not, [traverse_tree] only appends
    to the rows gathered so far: the rows it adds and the exception it
    raises are those of a call that starts from no rows. *)
Theorem traverse_tree_only_appends (j : json) (acc : list row) :
  traverse_tree j acc = (rows ← traverse_tree j []; Ok (acc ++ rows)).
Proof. apply traverse_tree_appends_deep. Qed.

(** X2: a node without [children] that has a [taxonomy] field, and whose
    [taxonomy] or [gene_member] field is present and not an object, makes
    [traverse_tree] raise [AttributeError]. *)
Theorem ill_typed_leaf_raises kvs acc :
  dict_get "children" kvs = None →
  has_taxonomy kvs = true →
  leaf_typed kvs = false →
  traverse_tree (JDict kvs) acc = Raise AttributeError.
Proof.
  intros Hc Ht Htyped. rewrite traverse_tree_dict, Hc.
  unfold has_taxonomy, leaf_typed, extract_leaf in *. simpl.
  destruct (dict_get "taxonomy" kvs) as [tax |]; [| discriminate].
  simpl. destruct tax; try reflexivity. simpl in *.
  destruct (dict_get "gene_member" kvs) as [member |]; [| discriminate].
  destruct member; try reflexivity. discriminate.
Qed.

Lemma ill_typed_leaf_raises_witness :
  traverse_tree
    (JDict [("taxonomy", JDict []); ("gene_member", JNull)]) []
  = Raise AttributeError.
Proof.
  exact (ill_typed_leaf_raises
           [("taxonomy", JDict []); ("gene_member", JNull)] []
           eq_refl eq_refl eq_refl).
Defined.

(** X3: the flattening is all or nothing.  When a child of a node raises,
    after the children before it have been traversed, the node raises the
    same exception and the rows gathered so far are lost. *)
Theorem failing_child_fails_the_node kvs before child after acc acc' e :
  dict_get "children" kvs = Some (JList (before ++ child :: after)) →
  for_each traverse_tree before acc = Ok acc' →
  traverse_tree child acc' = Raise e →
  traverse_tree (JDict kvs) acc = Raise e.
Proof.
  intros Hc Hbefore Hchild. rewrite traverse_tree_dict, Hc.
  rewrite for_each_app, Hbefore. simpl. by rewrite Hchild.
Qed.

Lemma failing_child_fails_the_node_witness :
  traverse_tree
    (JDict [("children", JList [JDict leaf_B; JNull; JDict leaf_A])]) []
  = Raise TypeError.
Proof.
  exact (failing_child_fails_the_node
           [("children", JList [JDict leaf_B; JNull; JDict leaf_A])]
           [JDict leaf_B] JNull [JDict leaf_A] []
           [Row (JStr "L2") (JStr "N/A") (JStr "Species B")] TypeError
           eq_refl eq_refl eq_refl).
Defined.

(** X4: on a non-empty list whose first element is null, a number or a
    boolean, [process_gene_tree_data] raises [TypeError] (the membership
    test of line 65 is applied to a value that is not a container). *)
Theorem scalar_first_element_raises first rest :
  is_scalar first = true →
  process_gene_tree_data (JList (first :: rest)) = Raise TypeError.
Proof. destruct first; try discriminate; reflexivity. Qed.

Lemma scalar_first_element_raises_witness :
  process_gene_tree_data (JList [JNull; JDict [("tree", JDict leaf_B)]])
  = Raise TypeError.
Proof.
  exact (scalar_first_element_raises JNull
           [JDict [("tree", JDict leaf_B)]] eq_refl).
Defined.

End FlattenerExtra.

(** ** More on the batch engine *)

Module EngineExtra.
Import Flattener Engine Observations Samples MoreSamples RunObservations.
Import EngineProofs.

Ltac observe_more :=
  unfold completed_with_table, given_up, completed_without_data,
    save_checkpoint, save_checkpoint_until, checkpoint_record, log,
    set_checkpoint_json, set_last_processed_gene, set_processed_genes,
    set_current_gene_number;
  simpl; rewrite <- ?app_assoc; simpl.

(** X5: when the primary lookup has named the gene and the dependent lookup
    answers 200 with a payload that flattens to at least one row, the engine
    writes the table ([.csv]) with exactly those rows, adds the identifier
    to the processed set and saves the checkpoint, provided the table can be
    written under that name; when the write raises, the identifier is given
    up: it is not added to the processed set and no checkpoint is saved. *)
Theorem table_is_written_and_completes r g w symbol tree first_row rows :
  gene_id g ∉ processed_genes w →
  primary_names r g symbol →
  genetree r (gene_id g) symbol = Http 200 (Some tree) →
  truthy tree = true →
  process_gene_tree_data tree = Ok (first_row :: rows) →
  if writes_csv r symbol (first_row :: rows)
  then completed_with_table g symbol (first_row :: rows) w
                            (process_gene r g w)
  else given_up [GetGeneInfo (gene_id g); GetGeneTree (gene_id g) symbol;
                 WriteFailed (gene_id g) symbol] w (process_gene r g w).
Proof.
  intros Hnew (info & Hresp & Htruthy & Hsym) Htree Hpayload Hflat.
  unfold_engine. rewrite bool_decide_eq_false_2 by done.
  rewrite Hresp. simpl. rewrite Htruthy. simpl. rewrite Hsym. simpl.
  rewrite Htree. simpl. rewrite Hpayload. simpl. rewrite Hflat.
  destruct (writes_csv r symbol (first_row :: rows)); observe_more;
    by repeat split.
Qed.

Lemma table_is_written_and_completes_witness :
  completed_with_table (Gene "G1" "g1") (JStr "foo")
    [Row (JStr "L1") (JStr "GeneA") (JStr "Species A");
     Row (JStr "L2") (JStr "N/A") (JStr "Species B")]
    fresh (process_gene sample_remote (Gene "G1" "g1") fresh) ∧
  given_up [GetGeneInfo "S1"; GetGeneTree "S1" (JStr "A/B");
            WriteFailed "S1" (JStr "A/B")]
    fresh (process_gene slash_remote (Gene "S1" "s1") fresh).
Proof.
  split.
  - refine (table_is_written_and_completes sample_remote (Gene "G1" "g1")
              fresh (JStr "foo") sample_tree _ _ _ _ eq_refl eq_refl eq_refl).
    + set_solver.
    + eexists. repeat split; reflexivity.
  - refine (table_is_written_and_completes slash_remote (Gene "S1" "s1")
              fresh (JStr "A/B") sample_tree _ _ _ _ eq_refl eq_refl eq_refl).
    + set_solver.
    + eexists. repeat split; reflexivity.
Defined.

(** X6: when the dependent lookup answers 200 with a payload on which the
    flattener raises, the identifier is given up after the two requests:
    no artifact is written, the checkpoint is not saved and the identifier
    stays out of the processed set. *)
Theorem malformed_tree_gives_up r g w symbol tree e :
  gene_id g ∉ processed_genes w →
  primary_names r g symbol →
  genetree r (gene_id g) symbol = Http 200 (Some tree) →
  truthy tree = true →
  process_gene_tree_data tree = Raise e →
  given_up [GetGeneInfo (gene_id g); GetGeneTree (gene_id g) symbol] w
           (process_gene r g w).
Proof.
  intros Hnew (info & Hresp & Htruthy & Hsym) Htree Hpayload Hflat.
  unfold_engine. rewrite bool_decide_eq_false_2 by done.
  rewrite Hresp. simpl. rewrite Htruthy. simpl. rewrite Hsym. simpl.
  rewrite Htree. simpl. rewrite Hpayload. simpl. rewrite Hflat.
  observe_more. by repeat split.
Qed.

Lemma malformed_tree_gives_up_witness :
  given_up [GetGeneInfo "E4"; GetGeneTree "E4" JNull] fresh
           (process_gene odd_remote (Gene "E4" "e4") fresh).
Proof.
  apply (malformed_tree_gives_up odd_remote (Gene "E4" "e4") fresh JNull
           (JList [JNull]) TypeError).
  - set_solver.
  - eexists. repeat split; reflexivity.
  - reflexivity.
  - reflexivity.
  - reflexivity.
Defined.

(** X7: when the dependent lookup answers 200 with a non-empty payload that
    flattens to no row, the engine writes the no-data marker and completes
    the identifier, as for an empty answer, provided the marker can be
    written under that name; when the write raises, the identifier is given
    up. *)
Theorem tree_without_rows_is_no_data r g w symbol tree :
  gene_id g ∉ processed_genes w →
  primary_names r g symbol →
  genetree r (gene_id g) symbol = Http 200 (Some tree) →
  truthy tree = true →
  process_gene_tree_data tree = Ok [] →
  if writes_txt r symbol
  then completed_without_data g symbol w (process_gene r g w)
  else given_up [GetGeneInfo (gene_id g); GetGeneTree (gene_id g) symbol;
                 WriteFailed (gene_id g) symbol] w (process_gene r g w).
Proof.
  intros Hnew (info & Hresp & Htruthy & Hsym) Htree Hpayload Hflat.
  unfold_engine. rewrite bool_decide_eq_false_2 by done.
  rewrite Hresp. simpl. rewrite Htruthy. simpl. rewrite Hsym. simpl.
  rewrite Htree. simpl. rewrite Hpayload. simpl. rewrite Hflat.
  destruct (writes_txt r symbol); observe_more; by repeat split.
Qed.

Lemma tree_without_rows_is_no_data_witness :
  completed_without_data (Gene "E5" "e5") JNull fresh
    (process_gene odd_remote (Gene "E5" "e5") fresh) ∧
  given_up [GetGeneInfo "S2"; GetGeneTree "S2" (JStr "A/B");
            WriteFailed "S2" (JStr "A/B")]
    fresh (process_gene slash_remote (Gene "S2" "s2") fresh).
Proof.
  split.
  - refine (tree_without_rows_is_no_data odd_remote (Gene "E5" "e5") fresh
              JNull (JDict [("tree", JDict [("children", JList [])])])
              _ _ eq_refl eq_refl eq_refl).
    + set_solver.
    + eexists. repeat split; reflexivity.
  - refine (tree_without_rows_is_no_data slash_remote (Gene "S2" "s2") fresh
              (JStr "A/B") (JDict [("tree", JDict [("children", JList [])])])
              _ _ eq_refl eq_refl eq_refl).
    + set_solver.
    + eexists. repeat split; reflexivity.
Defined.

(** X8: a primary lookup that answers 200 with anything but a non-empty
    JSON object (a body that is not JSON, null, an empty object, a list, a
    string, a number) gives the identifier up after that one request: the
    dependent lookup is not requested and nothing is written. *)
Theorem unusable_primary_body_gives_up r g w body :
  gene_id g ∉ processed_genes w →
  lookup r (gene_id g) = Http 200 body →
  nonempty_object body = false →
  given_up [GetGeneInfo (gene_id g)] w (process_gene r g w).
Proof.
  intros Hnew Hresp Hbody. unfold_engine.
  rewrite bool_decide_eq_false_2 by done. rewrite Hresp. simpl.
  destruct body as [info |]; simpl; [| observe_more; by repeat split].
  destruct (truthy info) eqn:Htruthy; simpl;
    [| observe_more; by repeat split].
  destruct info as [| b | z | s | l | kvs]; simpl;
    try (observe_more; by repeat split).
  destruct kvs; discriminate.
Qed.

Lemma unusable_primary_body_gives_up_witness :
  given_up [GetGeneInfo "E1"] fresh
           (process_gene odd_remote (Gene "E1" "e1") fresh).
Proof.
  apply (unusable_primary_body_gives_up odd_remote (Gene "E1" "e1") fresh
           (Some (JDict []))).
  - set_solver.
  - reflexivity.
  - reflexivity.
Defined.

(** X9: the two lookups accept status 200 only.  Any other status, 201 or
    204 included, gives the identifier up on the primary lookup; on the
    dependent lookup it takes the identifier to the no-data marker, which
    completes it when the marker can be written under the symbol. *)
Theorem only_status_200_is_accepted r g w :
  gene_id g ∉ processed_genes w →
  (∀ status body,
      lookup r (gene_id g) = Http status body →
      status ≠ 200 →
      given_up [GetGeneInfo (gene_id g)] w (process_gene r g w)) ∧
  (∀ symbol status body,
      primary_names r g symbol →
      genetree r (gene_id g) symbol = Http status body →
      status ≠ 200 →
      if writes_txt r symbol
      then completed_without_data g symbol w (process_gene r g w)
      else given_up [GetGeneInfo (gene_id g); GetGeneTree (gene_id g) symbol;
                     WriteFailed (gene_id g) symbol] w (process_gene r g w)).
Proof.
  intros Hnew. split.
  - intros status body Hresp Hst.
    eapply primary_non_200; [done | exact Hresp | by apply Z.eqb_neq].
  - intros symbol status body Hprimary Hresp Hst.
    assert (Hnone : no_data_response (genetree r (gene_id g) symbol) = true).
    { rewrite Hresp. simpl. by rewrite (proj2 (Z.eqb_neq status 200)). }
    destruct (writes_txt r symbol) eqn:Hwrite.
    + by apply dependent_no_data.
    + by apply dependent_no_data_unwritable.
Qed.

Lemma only_status_200_is_accepted_witness :
  given_up [GetGeneInfo "E2"] fresh
           (process_gene odd_remote (Gene "E2" "e2") fresh) ∧
  completed_without_data (Gene "E3" "e3") JNull fresh
    (process_gene odd_remote (Gene "E3" "e3") fresh).
Proof.
  split.
  - apply (only_status_200_is_accepted odd_remote (Gene "E2" "e2") fresh)
      with (status := 204)
           (body := Some (JDict [("display_name", JStr "x")]));
      [set_solver | reflexivity | lia].
  - refine (proj2 (only_status_200_is_accepted odd_remote (Gene "E3" "e3")
                     fresh _) JNull 201 (Some sample_tree) _ eq_refl _).
    + set_solver.
    + eexists. repeat split; reflexivity.
    + lia.
Defined.

(** X10: when the primary lookup returns a non-empty object, the dependent
    lookup is requested once, with the object's [display_name] if it has
    that key and with the symbol of the gene list otherwise; these are the
    only two remote requests for the identifier. *)
Theorem tree_is_requested_by_effective_symbol r g w info :
  gene_id g ∉ processed_genes w →
  lookup r (gene_id g) = Http 200 (Some (JDict info)) →
  info ≠ [] →
  ∃ events,
    trace (process_gene r g w) = trace w ++ events ∧
    remote_calls events
    = [GetGeneInfo (gene_id g);
       GetGeneTree (gene_id g) (effective_symbol g info)].
Proof.
  intros Hnew Hresp Hinfo. unfold effective_symbol. unfold_engine.
  rewrite bool_decide_eq_false_2 by done. rewrite Hresp. simpl.
  set (symbol := from_option id (JStr (gene_symbol g))
                             (dict_get "display_name" info)).
  clearbody symbol. destruct info as [| kv info]; [done |]. simpl.
  destruct (genetree r (gene_id g) symbol) as [| | status body]; simpl;
    try (eexists [_; _]; observe_more; by split).
  destruct (status =? 200); simpl; [| case_writes; close_events].
  destruct body as [tree |]; simpl; [| close_events].
  destruct (truthy tree); simpl; [| case_writes; close_events].
  destruct (process_gene_tree_data tree) as [[| row rows] | e]; simpl;
    case_writes; close_events.
Qed.

Lemma tree_is_requested_by_effective_symbol_witness :
  ∃ events,
    trace (process_gene odd_remote (Gene "E6" "e6") fresh)
    = trace fresh ++ events ∧
    remote_calls events = [GetGeneInfo "E6"; GetGeneTree "E6" JNull].
Proof.
  apply (tree_is_requested_by_effective_symbol odd_remote (Gene "E6" "e6")
           fresh [("display_name", JNull)]).
  - set_solver.
  - reflexivity.
  - discriminate.
Defined.

End EngineExtra.

(** ** More on the loop and on whole runs *)

Module RunExtra.
Import Flattener Engine Observations Samples MoreSamples RunObservations.
Import EngineProofs.

Lemma checkpoints_app xs ys :
  checkpoints (xs ++ ys) = checkpoints xs ++ checkpoints ys.
Proof. apply omap_app. Qed.

(** What one iteration adds to the actions: for every artifact, right
    after it, a checkpoint that names the identifier as last gene. *)
Lemma process_gene_saves r g w :
  ∃ events,
    trace (process_gene r g w) = trace w ++ events ∧
    map stored_last_gene (checkpoints events) = map Some (artifacts events).
Proof.
  destruct (decide (gene_id g ∈ processed_genes w)) as [Hin | Hnew].
  - exists []. destruct (skip_step r g w Hin) as [-> _].
    by rewrite app_nil_r.
  - unfold_engine. rewrite bool_decide_eq_false_2 by done.
    destruct (lookup r (gene_id g)) as [| | status body]; simpl;
      try (eexists [_]; observe; by split).
    destruct (status =? 200); simpl; [| eexists [_]; observe; by split].
    destruct body as [info |]; simpl; [| eexists [_]; observe; by split].
    destruct (truthy info); simpl; [| eexists [_]; observe; by split].
    destruct (py_get info "display_name" (JStr (gene_symbol g)))
      as [symbol | e]; simpl; [| eexists [_]; observe; by split].
    destruct (genetree r (gene_id g) symbol) as [| | status' body']; simpl;
      try (eexists [_; _]; observe; by split).
    destruct (status' =? 200); simpl; [| case_writes; close_events].
    destruct body' as [tree |]; simpl; [| close_events].
    destruct (truthy tree); simpl; [| case_writes; close_events].
    destruct (process_gene_tree_data tree) as [[| row rows] | e]; simpl;
      case_writes; close_events.
Qed.

Lemma position_after_loop r l w :
  current_gene_number (process_gene_batch r l w)
  = current_gene_number w + Z.of_nat (length l).
Proof.
  revert w. induction l as [| g l IH]; intros w; simpl; [lia |].
  rewrite IH.
  destruct (decide (gene_id g ∈ processed_genes w)) as [Hin | Hnew].
  - destruct (skip_step r g w Hin) as (_ & _ & _ & _ & ->). lia.
  - destruct (process_gene_new r g w Hnew) as (events & _ & _ & -> & _).
    lia.
Qed.

(** X11: a loop over a list adds the length of the list to the position
    counter, whatever happens to each identifier (skipped, given up or
    completed). *)
Theorem position_counts_every_entry r l w :
  current_gene_number (process_gene_batch r l w)
  = current_gene_number w + Z.of_nat (length l).
Proof. apply position_after_loop. Qed.

(** X12: a loop never removes an identifier from the processed set, and
    adds only identifiers of the list it goes through. *)
Theorem processed_set_grows_within_list r l w :
  processed_genes w ⊆ processed_genes (process_gene_batch r l w) ∧
  processed_genes (process_gene_batch r l w)
    ⊆ processed_genes w ∪ list_to_set (ids l).
Proof.
  revert w. induction l as [| g l IH]; intros w; simpl.
  - split; [done |]. apply union_subseteq_l.
  - destruct (IH (process_gene r g w)) as [Hlow Hhigh].
    destruct (process_gene_processed r g w) as [Heq | Heq];
      rewrite Heq in Hlow, Hhigh; split; intros x Hx.
    + by apply Hlow.
    + apply Hhigh in Hx. apply elem_of_union in Hx as [Hx | Hx];
        apply elem_of_union; [by left | right].
      apply elem_of_union. by right.
    + apply Hlow, elem_of_union. by right.
    + apply Hhigh in Hx. apply elem_of_union in Hx as [Hx | Hx];
        apply elem_of_union.
      * apply elem_of_union in Hx as [Hx | Hx]; [right | by left].
        apply elem_of_union. by left.
      * right. apply elem_of_union. by right.
Qed.

(** X13: a loop requests the primary lookup only for identifiers of its
    list that are not in the processed set when it starts, also when the
    list has duplicates. *)
Theorem requests_only_for_unprocessed r l w :
  ∃ new,
    requested (trace (process_gene_batch r l w))
    = requested (trace w) ++ new ∧
    ∀ id, id ∈ new → id ∈ ids l ∧ id ∉ processed_genes w.
Proof.
  revert w. induction l as [| g l IH]; intros w; simpl.
  - exists []. split; [by rewrite app_nil_r | by intros id ?%elem_of_nil].
  - destruct (IH (process_gene r g w)) as (new & -> & Hnew).
    rewrite process_gene_requested.
    assert (Hsub : processed_genes w ⊆ processed_genes (process_gene r g w)).
    { destruct (process_gene_processed r g w) as [-> | ->];
        [done | apply union_subseteq_r]. }
    case_bool_decide as Hin.
    + exists new. rewrite app_nil_r. split; [done |].
      intros id Hid. destruct (Hnew id Hid) as [Hl Hp].
      split; [by right | ]. intros Hw. by apply Hp, Hsub.
    + exists (gene_id g :: new). rewrite <- app_assoc. split; [done |].
      intros id [-> | Hid]%elem_of_cons; [split; [by left | done] |].
      destruct (Hnew id Hid) as [Hl Hp].
      split; [by right | ]. intros Hw. by apply Hp, Hsub.
Qed.

Lemma artifacts_stay_unique r g w :
  NoDup (artifacts (trace w)) →
  (∀ id, id ∈ artifacts (trace w) → id ∈ processed_genes w) →
  NoDup (artifacts (trace (process_gene r g w))) ∧
  (∀ id, id ∈ artifacts (trace (process_gene r g w)) →
         id ∈ processed_genes (process_gene r g w)).
Proof.
  intros Hnodup Hin.
  destruct (decide (gene_id g ∈ processed_genes w)) as [Hdone | Hnew].
  - by destruct (skip_step r g w Hdone) as (-> & _ & -> & _).
  - destruct (process_gene_new r g w Hnew)
      as (events & -> & _ & _ & [(Ha & -> & _) | (Ha & -> & _)]);
      rewrite artifacts_app, artifacts_info, Ha.
    + by rewrite app_nil_r.
    + split.
      * apply NoDup_app. repeat split; [done | | apply NoDup_singleton].
        intros id Hid ->%list_elem_of_singleton. by apply Hnew, Hin.
      * intros id [Hid | ->%list_elem_of_singleton]%elem_of_app;
          apply elem_of_union; [right; by apply Hin | left].
        by apply elem_of_singleton.
Qed.

Lemma artifacts_stay_unique_batch r l :
  ∀ w,
    NoDup (artifacts (trace w)) →
    (∀ id, id ∈ artifacts (trace w) → id ∈ processed_genes w) →
    NoDup (artifacts (trace (process_gene_batch r l w))).
Proof.
  induction l as [| g l IH]; intros w Hnodup Hin; simpl; [done |].
  destruct (artifacts_stay_unique r g w Hnodup Hin). by apply IH.
Qed.

(** X14: in a run from a fresh process, no identifier gets two artifacts,
    whatever the checkpoint file holds and also when the gene list names an
    identifier several times. *)
Theorem one_artifact_per_identifier r genes f :
  NoDup (artifacts (trace (main r genes f))).
Proof.
  destruct (load_checkpoint f) as [[[completed last] position] | e] eqn:Hload.
  - rewrite (main_run r genes f completed last position Hload). simpl.
    unfold save_checkpoint, log. simpl. rewrite artifacts_app. simpl.
    rewrite app_nil_r. apply artifacts_stay_unique_batch; simpl.
    + apply NoDup_nil_2.
    + by intros id ?%elem_of_nil.
  - unfold main, process_all_gene_trees, resume, mbind, M_bind. simpl.
    rewrite Hload. simpl. apply NoDup_nil_2.
Qed.

(** X15: in a loop, a checkpoint is written exactly once per artifact, and
    the checkpoints written name, in order, the identifiers for which an
    artifact was written as last gene. *)
Theorem one_checkpoint_per_artifact r l w :
  ∃ events,
    trace (process_gene_batch r l w) = trace w ++ events ∧
    map stored_last_gene (checkpoints events) = map Some (artifacts events).
Proof.
  revert w. induction l as [| g l IH]; intros w; simpl.
  - exists []. by rewrite app_nil_r.
  - destruct (IH (process_gene r g w)) as (later & -> & Hlater).
    destruct (process_gene_saves r g w) as (now & -> & Hnow).
    exists (now ++ later). rewrite <- app_assoc. split; [done |].
    by rewrite checkpoints_app, artifacts_app, !map_app, Hnow, Hlater.
Qed.

Lemma main_from_position r genes f completed last_gene position :
  load_checkpoint f = Ok (completed, last_gene, position) →
  0 ≤ position →
  main r genes f
  = let w := process_gene_batch r (drop (Z.to_nat position) genes)
                                (World None completed position f []) in
    save_checkpoint (processed_genes w) w.
Proof.
  intros Hload Hpos.
  rewrite (main_run r genes f completed last_gene position Hload).
  unfold visited. by rewrite concat_batches.
Qed.

(** X16: for a loaded position that is not negative, the batches of 100 of
    [process_all_gene_trees] amount to one loop over the gene list from
    that position on, followed by a last save of the checkpoint. *)
Theorem batches_are_one_loop r genes f completed last_gene position :
  load_checkpoint f = Ok (completed, last_gene, position) →
  0 ≤ position →
  main r genes f
  = let w := process_gene_batch r (drop (Z.to_nat position) genes)
                                (World None completed position f []) in
    save_checkpoint (processed_genes w) w.
Proof. apply main_from_position. Qed.

Lemma batches_are_one_loop_witness :
  main sample_remote [Gene "G1" "foo"; Gene "G2" "bar"; Gene "G3" "baz"]
       (Document (CheckpointData ["G1"] (Some "G1") (Some 1)))
  = let w := process_gene_batch sample_remote
               [Gene "G2" "bar"; Gene "G3" "baz"]
               (World None (list_to_set ["G1"]) 1
                  (Document (CheckpointData ["G1"] (Some "G1") (Some 1)))
                  []) in
    save_checkpoint (processed_genes w) w.
Proof.
  apply (batches_are_one_loop sample_remote
           [Gene "G1" "foo"; Gene "G2" "bar"; Gene "G3" "baz"]
           (Document (CheckpointData ["G1"] (Some "G1") (Some 1)))
           (list_to_set ["G1"]) (Some "G1") 1 eq_refl).
  lia.
Defined.

(** X17: whatever the loaded position, negative or past the end included,
    no batch handed to [process_gene_batch] has more than 100 genes. *)
Theorem batches_hold_at_most_100 (genes : list gene) (position : Z) :
  Forall (fun batch => (length batch ≤ 100)%nat) (batches genes position).
Proof.
  unfold batches. apply Forall_forall. intros batch Hin.
  apply list_elem_of_In, in_map_iff in Hin as (i & <- & _).
  unfold py_slice, batch_size. rewrite length_take.
  set (n := Z.of_nat (length genes)).
  destruct (Z.ltb_spec (i + 100) 0), (Z.ltb_spec i 0); lia.
Qed.

Lemma final_state r l completed position f :
  let w := process_gene_batch r l (World None completed position f []) in
  processed_genes w = completed ∪ list_to_set (artifacts (trace w)) ∧
  current_gene_number w = position + Z.of_nat (length l).
Proof.
  destruct (between_identifiers_batch r completed position f l 0 _
              (between_identifiers_start completed position f))
    as (Hnum & Hset & _). simpl in *. by split.
Qed.

Lemma full_run_checkpoint r genes f completed last_gene position :
  load_checkpoint f = Ok (completed, last_gene, position) →
  0 ≤ position →
  load_checkpoint (checkpoint_json (main r genes f))
  = Ok (completed ∪ list_to_set (artifacts (trace (main r genes f))),
        last_processed_gene (main r genes f),
        Z.max position (Z.of_nat (length genes))).
Proof.
  intros Hload Hpos.
  rewrite (main_from_position r genes f completed last_gene position)
    by done.
  destruct (final_state r (drop (Z.to_nat position) genes) completed
              position f) as [Hset Hnum].
  simpl. rewrite list_to_set_elements_L, Hnum, length_drop.
  unfold save_checkpoint, log. simpl. rewrite artifacts_app. simpl.
  rewrite app_nil_r, <- Hset. do 2 f_equal. lia.
Qed.

(** X18: after a run that was not interrupted, with a loaded position that
    is not negative, the checkpoint file holds the loaded processed set
    together with the identifiers for which the run wrote an artifact, and
    as position the length of the gene list, or the loaded position if that
    is larger. *)
Theorem checkpoint_after_full_run r genes f completed last_gene position :
  load_checkpoint f = Ok (completed, last_gene, position) →
  0 ≤ position →
  load_checkpoint (checkpoint_json (main r genes f))
  = Ok (completed ∪ list_to_set (artifacts (trace (main r genes f))),
        last_processed_gene (main r genes f),
        Z.max position (Z.of_nat (length genes))).
Proof. apply full_run_checkpoint. Qed.

Lemma checkpoint_after_full_run_witness :
  load_checkpoint
    (checkpoint_json
       (main sample_remote
          [Gene "G1" "foo"; Gene "G2" "bar"; Gene "G3" "baz"] Missing))
  = Ok (∅ ∪ list_to_set
              (artifacts
                 (trace (main sample_remote
                           [Gene "G1" "foo"; Gene "G2" "bar";
                            Gene "G3" "baz"] Missing))),
        last_processed_gene
          (main sample_remote
             [Gene "G1" "foo"; Gene "G2" "bar"; Gene "G3" "baz"] Missing),
        Z.max 0 3).
Proof.
  apply (checkpoint_after_full_run sample_remote
           [Gene "G1" "foo"; Gene "G2" "bar"; Gene "G3" "baz"] Missing
           ∅ None 0 eq_refl).
  lia.
Defined.




(** X20: when the checkpoint file exists and cannot be parsed, the run
    processes no identifier: the exception of [load_checkpoint] reaches the
    handler of the script, which saves the empty state over the file. *)
Theorem unreadable_checkpoint_is_overwritten r genes :
  let d := CheckpointData [] None (Some 0) in
  trace (main r genes Torn) = [WriteCheckpoint d] ∧
  checkpoint_json (main r genes Torn) = Document d.
Proof. split; reflexivity. Qed.

End RunExtra.

(** ** The gene list and the script that builds it *)

Module GeneListExtra.
Import Engine GeneList Biomart RunObservations TableObservations.

Lemma py_or_falsy a b :
  falsy (py_or a b) ↔ falsy a ∧ falsy b.
Proof.
  unfold falsy, py_or. destruct a as [s |].
  - destruct (String.eqb_spec s "") as [-> | Hs].
    + intuition congruence.
    + split; [| intuition congruence].
      intros [H | H]; [discriminate | congruence].
  - intuition congruence.
Qed.

Lemma py_or_true a b s :
  py_or a b = Some s → s ≠ "" → a = Some s ∨ (falsy a ∧ b = Some s).
Proof.
  unfold falsy, py_or. destruct a as [s' |]; [| auto].
  destruct (String.eqb_spec s' "") as [-> | Hs]; auto.
Qed.

Lemma or_else_true a b : b ≠ "" → or_else a b ≠ "".
Proof.
  intros Hb. unfold or_else. destruct a as [s |]; [| done].
  by destruct (String.eqb_spec s "").
Qed.

Lemma row_gene_Some row g :
  row_gene row = Some g → gene_id g ≠ "" ∧ Engine.gene_symbol g ≠ "".
Proof.
  unfold row_gene.
  destruct (py_or (py_or (row !! "gene_id") (row !! "ensembl_id"))
                  (row !! "WBGeneID")) as [id |]; [| discriminate].
  destruct (String.eqb_spec id "") as [-> | Hid]; [discriminate |].
  intros [= <-]. simpl. split; [done | by apply or_else_true].
Qed.

(** X21: every gene of the list read from the CSV file has a non-empty id
    and a non-empty symbol. *)
Theorem genes_read_have_id_and_symbol (rows : list (gmap string string)) :
  Forall (fun g => gene_id g ≠ "" ∧ Engine.gene_symbol g ≠ "")
         (read_anole_genes rows).
Proof.
  unfold read_anole_genes. apply Forall_forall. intros g Hg.
  apply list_elem_of_omap in Hg as (row & _ & Hrow).
  by apply row_gene_Some in Hrow.
Qed.

(** X22: a row is left out of the gene list exactly when its [gene_id],
    [ensembl_id] and [WBGeneID] columns are all missing or empty; and a row
    with a non-empty [gene_id] column gets that value as id, whatever the
    other two columns hold. *)
Theorem row_is_skipped_iff_no_id (row : gmap string string) :
  (row_gene row = None ↔
     falsy (row !! "gene_id") ∧ falsy (row !! "ensembl_id") ∧
     falsy (row !! "WBGeneID")) ∧
  (∀ id, row !! "gene_id" = Some id → id ≠ "" →
         gene_id <$> row_gene row = Some id).
Proof.
  split.
  - assert (Hall :
      falsy (py_or (py_or (row !! "gene_id") (row !! "ensembl_id"))
                   (row !! "WBGeneID"))
      ↔ falsy (row !! "gene_id") ∧ falsy (row !! "ensembl_id") ∧
        falsy (row !! "WBGeneID"))
      by (rewrite !py_or_falsy; tauto).
    rewrite <- Hall. clear Hall. unfold row_gene, falsy.
    destruct (py_or (py_or (row !! "gene_id") (row !! "ensembl_id"))
                    (row !! "WBGeneID")) as [id |]; [| split; by auto].
    destruct (String.eqb_spec id "") as [-> | Hid]; [split; by auto |].
    split; [discriminate | intros [H | H]; congruence].
  - intros id Hrow Hid. unfold row_gene, py_or. rewrite Hrow.
    assert (Heqb : String.eqb id "" = false) by by apply String.eqb_neq.
    rewrite Heqb. simpl. rewrite Heqb. simpl. by rewrite Heqb.
Qed.

Lemma row_is_skipped_iff_no_id_witness :
  gene_id <$> row_gene {[ "gene_id" := "A1"; "ensembl_id" := "B2" ]}
  = Some "A1".
Proof.
  apply (proj2 (row_is_skipped_iff_no_id
                  {[ "gene_id" := "A1"; "ensembl_id" := "B2" ]}) "A1").
  - reflexivity.
  - discriminate.
Defined.

Lemma row_gene_written (g : biomart_gene) :
  row_gene {[ "gene_id" := ensembl_id g;
              "gene_symbol" := Biomart.gene_symbol g;
              "ensembl_id" := ensembl_id g ]}
  = if String.eqb (ensembl_id g) "" then None else Some (listed_gene g).
Proof.
  unfold row_gene, listed_gene.
  rewrite lookup_insert_eq.
  rewrite !(lookup_insert_ne _ "gene_id") by done.
  rewrite !(lookup_insert_ne _ "gene_symbol") by done.
  rewrite lookup_insert_eq, lookup_singleton_eq.
  rewrite !lookup_singleton_ne by done.
  unfold py_or, or_else.
  destruct (String.eqb (ensembl_id g) "") eqn:Hid; simpl; rewrite ?Hid;
    [reflexivity |].
  destruct (String.eqb (Biomart.gene_symbol g) "") eqn:Hname.
  - rewrite lookup_insert_ne, lookup_singleton_ne by done. reflexivity.
  - by rewrite Hname.
Qed.

Lemma read_written_rows (genes : list biomart_gene) :
  read_anole_genes (create_gene_csv genes)
  = map listed_gene (filter (fun g => ensembl_id g ≠ "") genes).
Proof.
  unfold read_anole_genes.
  induction genes as [| g genes IH]; [done |].
  rewrite filter_cons.
  change (omap row_gene (create_gene_csv (g :: genes)))
    with (match row_gene {[ "gene_id" := ensembl_id g;
                            "gene_symbol" := Biomart.gene_symbol g;
                            "ensembl_id" := ensembl_id g ]} with
          | Some y => y :: omap row_gene (create_gene_csv genes)
          | None => omap row_gene (create_gene_csv genes)
          end).
  rewrite row_gene_written, IH.
  destruct (String.eqb_spec (ensembl_id g) "") as [Hid | Hid].
  - by rewrite decide_False by (by intros H; apply H).
  - by rewrite decide_True by done.
Qed.

(** X23: read back by the loop of [process_all_gene_trees], the rows that
    [create_gene_csv] writes give, in order, one gene per gene with a
    non-empty Ensembl id, with that id and with the gene name as symbol, or
    the id when the name is empty. *)
Theorem gene_list_of_written_rows (genes : list biomart_gene) :
  read_anole_genes (create_gene_csv genes)
  = map listed_gene (filter (fun g => ensembl_id g ≠ "") genes).
Proof. apply read_written_rows. Qed.

End GeneListExtra.

(** ** The script that fetches the gene table *)

Module BiomartExtra.
Import Engine GeneList Biomart RunObservations TableObservations.
Import GeneListExtra.

Lemma split_on_cons sep s : ∃ first others, split_on sep s = first :: others.
Proof.
  induction s as [| c s (first & others & IH)]; simpl; [by eauto |].
  destruct (Ascii.eqb c sep); [by eauto |]. rewrite IH. by eauto.
Qed.

Lemma join_cons_cons sep p q rest :
  join sep (p :: q :: rest) = (p ++ String sep (join sep (q :: rest)))%string.
Proof. reflexivity. Qed.

(** Joining the pieces of a split gives the string back. *)
Lemma join_split sep s : join sep (split_on sep s) = s.
Proof.
  induction s as [| c s IH]; [done |].
  destruct (split_on_cons sep s) as (first & others & Hs).
  cbn [split_on]. rewrite Hs in *.
  destruct (Ascii.eqb c sep) eqn:Hc.
  - apply Ascii.eqb_eq in Hc as ->.
    rewrite join_cons_cons, IH. reflexivity.
  - destruct others as [| q rest].
    + simpl in *. by rewrite IH.
    + rewrite join_cons_cons in *. rewrite <- IH. reflexivity.
Qed.

Lemma split_without_sep sep s : has_char sep s = false → split_on sep s = [s].
Proof.
  induction s as [| c s IH]; [done |]. simpl.
  intros [Hc Hs]%orb_false_iff. rewrite Hc, IH by done. reflexivity.
Qed.

Lemma split_app sep a b :
  has_char sep a = false →
  split_on sep (a ++ String sep b) = a :: split_on sep b.
Proof.
  induction a as [| c a IH]; simpl.
  - intros _. by rewrite Ascii.eqb_refl.
  - intros [Hc Ha]%orb_false_iff. rewrite Hc, IH by done. reflexivity.
Qed.

(** Splitting a join of pieces that do not hold the separator gives the
    pieces back. *)
Lemma split_join sep parts :
  parts ≠ [] →
  Forall (fun p => has_char sep p = false) parts →
  split_on sep (join sep parts) = parts.
Proof.
  intros Hne Hall. induction Hall as [| p parts Hp Hall IH]; [done |].
  destruct parts as [| q parts]; [by apply split_without_sep |].
  change (join sep (p :: q :: parts))
    with (p ++ String sep (join sep (q :: parts)))%string.
  rewrite split_app by done. by rewrite IH.
Qed.

Lemma has_char_app c a b :
  has_char c (a ++ b) = has_char c a || has_char c b.
Proof.
  induction a as [| c' a IH]; [done |]. simpl. by rewrite IH, orb_assoc.
Qed.

Lemma parse_line_Some line g :
  parse_line line = Some g →
  biotype g = "protein_coding" ∧ table_line g = line.
Proof.
  unfold parse_line, table_line. intros Hparse.
  rewrite <- (join_split tab line).
  destruct (split_on tab line) as [| a [| b [| c [| d rest]]]];
    try discriminate.
  destruct (String.eqb c "protein_coding") eqn:Hc; [| discriminate].
  apply String.eqb_eq in Hc. inversion Hparse. by subst.
Qed.

Lemma parse_table_line g :
  clean_gene g = true →
  parse_line (table_line g)
  = if String.eqb (biotype g) "protein_coding" then Some g else None.
Proof.
  unfold clean_gene, clean_field, parse_line, table_line.
  intros [[[Hi _]%andb_true_iff [Hn _]%andb_true_iff]%andb_true_iff
          [Hb _]%andb_true_iff]%andb_true_iff.
  apply negb_true_iff in Hi, Hn, Hb.
  rewrite split_join by (done || by repeat constructor).
  by destruct g.
Qed.

(** X24: [fetch_green_anole_genes] returns [None] when the request fails in
    transport, when the status is in 400..599, and when the text, once
    stripped, has no newline, that is fewer than two lines. *)
Theorem fetch_returns_none_on_failure :
  fetch_green_anole_genes Unreachable = None ∧
  (∀ status text,
      400 ≤ status < 600 →
      fetch_green_anole_genes (Answer status text) = None) ∧
  (∀ status text,
      has_char newline (strip text) = false →
      fetch_green_anole_genes (Answer status text) = None).
Proof.
  split; [reflexivity |]. split.
  - intros status text [Hlo Hhi]. simpl.
    by rewrite (proj2 (Z.leb_le 400 status)), (proj2 (Z.ltb_lt status 600)).
  - intros status text Hone. simpl. rewrite split_without_sep by done.
    by destruct (_ && _).
Qed.

Lemma fetch_returns_none_on_failure_witness :
  fetch_green_anole_genes (Answer 503 "Service unavailable") = None ∧
  fetch_green_anole_genes (Answer 200 " Gene stable ID ") = None.
Proof.
  split.
  - apply (proj1 (proj2 fetch_returns_none_on_failure)). lia.
  - apply (proj2 (proj2 fetch_returns_none_on_failure)). reflexivity.
Defined.

(** X25: every gene that [fetch_green_anole_genes] returns has biotype
    [protein_coding] and comes from a line of the stripped text after the
    first one: that line is its id, name and biotype joined by tabs. *)
Theorem fetched_genes_are_protein_coding_lines status text genes :
  fetch_green_anole_genes (Answer status text) = Some genes →
  Forall (fun g => biotype g = "protein_coding" ∧
                   table_line g ∈ tail (split_on newline (strip text)))
         genes.
Proof.
  unfold fetch_green_anole_genes. destruct (_ && _); [discriminate |].
  destruct (split_on newline (strip text)) as [| header [| line more]];
    try discriminate.
  intros [= <-]. apply Forall_forall. intros g Hg.
  change (g ∈ omap parse_line (line :: more)) in Hg.
  apply list_elem_of_omap in Hg as (l & Hl & Hparse).
  apply parse_line_Some in Hparse as [Hbio <-]. by split.
Qed.

Lemma fetched_genes_are_protein_coding_lines_witness :
  Forall (fun g => biotype g = "protein_coding" ∧
                   table_line g ∈ tail (split_on newline (strip sample_table)))
         [BiomartGene "ENS1" "abc" "protein_coding";
          BiomartGene "" "orphan" "protein_coding"].
Proof.
  exact (fetched_genes_are_protein_coding_lines 200 sample_table
           [BiomartGene "ENS1" "abc" "protein_coding";
            BiomartGene "" "orphan" "protein_coding"] eq_refl).
Defined.

Lemma omap_parse_table rows :
  Forall (fun g => clean_gene g = true) rows →
  omap parse_line (map table_line rows)
  = filter (fun g => biotype g = "protein_coding") rows.
Proof.
  induction 1 as [| g rows Hg _ IH]; [done |].
  rewrite filter_cons.
  change (omap parse_line (map table_line (g :: rows)))
    with (match parse_line (table_line g) with
          | Some y => y :: omap parse_line (map table_line rows)
          | None => omap parse_line (map table_line rows)
          end).
  rewrite parse_table_line, IH by done.
  destruct (String.eqb_spec (biotype g) "protein_coding") as [Hb | Hb].
  - by rewrite decide_True.
  - by rewrite decide_False.
Qed.

Lemma table_line_one_line g :
  clean_gene g = true → has_char newline (table_line g) = false.
Proof.
  unfold clean_gene, clean_field, table_line.
  intros [[[_ Hi]%andb_true_iff [_ Hn]%andb_true_iff]%andb_true_iff
          [_ Hb]%andb_true_iff]%andb_true_iff.
  apply negb_true_iff in Hi, Hn, Hb. simpl.
  rewrite !has_char_app. simpl. rewrite !has_char_app. simpl.
  by rewrite Hi, Hn, Hb.
Qed.

Lemma fetch_table status header rows :
  ¬ (400 ≤ status < 600) →
  rows ≠ [] →
  has_char newline header = false →
  Forall (fun g => clean_gene g = true) rows →
  strip (join newline (header :: map table_line rows))
    = join newline (header :: map table_line rows) →
  fetch_green_anole_genes
    (Answer status (join newline (header :: map table_line rows)))
  = Some (filter (fun g => biotype g = "protein_coding") rows).
Proof.
  intros Hstatus Hrows Hheader Hclean Hstrip. unfold fetch_green_anole_genes.
  rewrite Hstrip.
  replace ((400 <=? status) && (status <? 600)) with false
    by (symmetry; apply andb_false_iff;
        destruct (Z.leb_spec 400 status), (Z.ltb_spec status 600);
        auto; lia).
  rewrite split_join; [| done |].
  - destruct rows as [| g rows]; [done |].
    rewrite <- (omap_parse_table (g :: rows)) by done. reflexivity.
  - constructor; [done |]. apply Forall_forall. intros line Hline.
    apply list_elem_of_In, in_map_iff in Hline as (g & <- & Hg).
    apply table_line_one_line.
    by apply (proj1 (Forall_forall _ _) Hclean), list_elem_of_In.
Qed.

(** X26: on a table, that is a header line followed by one line per gene
    with id, name and biotype separated by tabs, where no field holds a tab
    or a newline and the text neither starts nor ends with a space,
    [fetch_green_anole_genes] returns exactly the genes of biotype
    [protein_coding], in the order of the table. *)
Theorem fetch_reads_a_table status header rows :
  ¬ (400 ≤ status < 600) →
  rows ≠ [] →
  has_char newline header = false →
  Forall (fun g => clean_gene g = true) rows →
  strip (join newline (header :: map table_line rows))
    = join newline (header :: map table_line rows) →
  fetch_green_anole_genes
    (Answer status (join newline (header :: map table_line rows)))
  = Some (filter (fun g => biotype g = "protein_coding") rows).
Proof. apply fetch_table. Qed.

Lemma fetch_reads_a_table_witness :
  fetch_green_anole_genes (Answer 200 sample_table)
  = Some [BiomartGene "ENS1" "abc" "protein_coding";
          BiomartGene "" "orphan" "protein_coding"].
Proof.
  apply (fetch_reads_a_table 200 "Gene stable ID" sample_table_genes).
  - lia.
  - discriminate.
  - reflexivity.
  - repeat constructor.
  - vm_compute. reflexivity.
Defined.



End BiomartExtra.

(** ** The outcome of one identifier *)

Module OutcomeProofs.
Import Flattener Engine Observations Samples MoreSamples RunObservations.
Import EngineProofs RunExtra.




(** C5, as stated, fails twice.  A primary lookup that answers 503 leaves
    the checkpoint file alone but advances the position of the checkpoint
    state.  And a dependent lookup that answers 404 does not reach the
    no-data outcome when no file can be opened under the symbol: the
    identifier is given up. *)
Lemma primary_failure_advances_position :
  let after_G3 := process_gene sample_remote (Gene "G3" "baz") fresh in
  let after_S3 := process_gene slash_remote (Gene "S3" "s3") fresh in
  (lookup sample_remote "G3" = Http 503 None ∧
   current_gene_number after_G3 = 1 ∧
   current_gene_number after_G3 ≠ current_gene_number fresh) ∧
  (primary_names slash_remote (Gene "S3" "s3") (JStr "A/B") ∧
   genetree slash_remote "S3" (JStr "A/B") = Http 404 None ∧
   trace after_S3 = [GetGeneInfo "S3"; GetGeneTree "S3" (JStr "A/B");
                     WriteFailed "S3" (JStr "A/B")] ∧
   elements (processed_genes after_S3) = []).
Proof.
  split.
  - split; [reflexivity | split; [reflexivity | discriminate]].
  - split; [eexists; repeat split; reflexivity |].
    repeat split; vm_compute; reflexivity.
Qed.

(** C5, amended: a primary lookup that answers with a status outside
    200..299 ends the processing of the identifier: no artifact is written,
    the checkpoint file is not written, the identifier is not added to the
    processed set and the last processed identifier is unchanged; only the
    position counter in memory advances by one.  A dependent lookup that
    answers with such a status is not an error and takes the identifier to
    the no-data outcome, which completes it when the marker can be written
    under the symbol; when that write raises, the identifier is given up. *)
Theorem primary_failure_is_hard_dependent_failure_is_no_data r g w :
  gene_id g ∉ processed_genes w →
  (∀ status body,
      lookup r (gene_id g) = Http status body →
      non_2xx status →
      given_up [GetGeneInfo (gene_id g)] w (process_gene r g w)) ∧
  (∀ symbol status body,
      primary_names r g symbol →
      genetree r (gene_id g) symbol = Http status body →
      non_2xx status →
      if writes_txt r symbol
      then completed_without_data g symbol w (process_gene r g w)
      else given_up [GetGeneInfo (gene_id g); GetGeneTree (gene_id g) symbol;
                     WriteFailed (gene_id g) symbol] w (process_gene r g w)).
Proof.
  intros Hnew. split.
  - intros status body Hresp Hst.
    eapply primary_non_200; eauto using non_2xx_not_200.
  - intros symbol status body Hprimary Hresp Hst.
    assert (Hnone : no_data_response (genetree r (gene_id g) symbol) = true).
    { rewrite Hresp. simpl. by rewrite non_2xx_not_200. }
    destruct (writes_txt r symbol) eqn:Hwrite.
    + by apply dependent_no_data.
    + by apply dependent_no_data_unwritable.
Qed.

Lemma primary_failure_is_hard_dependent_failure_is_no_data_witness :
  given_up [GetGeneInfo "G3"] fresh
    (process_gene sample_remote (Gene "G3" "baz") fresh) ∧
  completed_without_data (Gene "G5" "five") (JStr "five") fresh
    (process_gene sample_remote (Gene "G5" "five") fresh) ∧
  given_up [GetGeneInfo "S3"; GetGeneTree "S3" (JStr "A/B");
            WriteFailed "S3" (JStr "A/B")] fresh
    (process_gene slash_remote (Gene "S3" "s3") fresh).
Proof.
  assert (Hfresh : ∀ id : string, id ∉ processed_genes fresh)
    by (intros id; set_solver).
  split; [| split].
  - apply (primary_failure_is_hard_dependent_failure_is_no_data
             sample_remote (Gene "G3" "baz") fresh (Hfresh _))
      with (status := 503) (body := None);
      [reflexivity | unfold non_2xx; lia].
  - refine (proj2 (primary_failure_is_hard_dependent_failure_is_no_data
                     sample_remote (Gene "G5" "five") fresh (Hfresh _))
              (JStr "five") 404 None _ eq_refl _).
    + eexists. repeat split; reflexivity.
    + unfold non_2xx. lia.
  - refine (proj2 (primary_failure_is_hard_dependent_failure_is_no_data
                     slash_remote (Gene "S3" "s3") fresh (Hfresh _))
              (JStr "A/B") 404 None _ eq_refl _).
    + eexists. repeat split; reflexivity.
    + unfold non_2xx. lia.
Defined.

End OutcomeProofs.

(** ** Interrupting and resuming a run *)

Module ResumeExtra.
Import Flattener Engine Observations Samples MoreSamples RunObservations.
Import EngineProofs RunExtra.

(** One iteration does the same to the processed set and to the position,
    and adds the same events, whatever the last gene, the checkpoint file
    and the events so far. *)
Lemma process_gene_same_events r g pg n l1 f1 t1 l2 f2 t2 :
  ∃ events pg',
    trace (process_gene r g (World l1 pg n f1 t1)) = t1 ++ events ∧
    trace (process_gene r g (World l2 pg n f2 t2)) = t2 ++ events ∧
    processed_genes (process_gene r g (World l1 pg n f1 t1)) = pg' ∧
    processed_genes (process_gene r g (World l2 pg n f2 t2)) = pg' ∧
    current_gene_number (process_gene r g (World l1 pg n f1 t1)) = n + 1 ∧
    current_gene_number (process_gene r g (World l2 pg n f2 t2)) = n + 1.
Proof.
  unfold_engine.
  destruct (bool_decide (gene_id g ∈ pg));
    [exists [], pg; by rewrite !app_nil_r |].
  destruct (lookup r (gene_id g)) as [| | status body]; simpl;
    try (eexists _, _; observe; by repeat split).
  destruct (status =? 200); simpl;
    [| eexists _, _; observe; by repeat split].
  destruct body as [info |]; simpl;
    [| eexists _, _; observe; by repeat split].
  destruct (truthy info); simpl;
    [| eexists _, _; observe; by repeat split].
  destruct (py_get info "display_name" (JStr (gene_symbol g)))
    as [symbol | e]; simpl; [| eexists _, _; observe; by repeat split].
  destruct (genetree r (gene_id g) symbol) as [| | status' body']; simpl;
    try (eexists _, _; observe; by repeat split).
  destruct (status' =? 200); simpl;
    [| case_writes; eexists _, _; observe; by repeat split].
  destruct body' as [tree |]; simpl;
    [| eexists _, _; observe; by repeat split].
  destruct (truthy tree); simpl;
    [| case_writes; eexists _, _; observe; by repeat split].
  destruct (process_gene_tree_data tree) as [[| row rows] | e]; simpl;
    case_writes; eexists _, _; observe; by repeat split.
Qed.

Lemma process_gene_batch_same_events r l :
  ∀ pg n l1 f1 t1 l2 f2 t2,
  ∃ events pg',
    trace (process_gene_batch r l (World l1 pg n f1 t1)) = t1 ++ events ∧
    trace (process_gene_batch r l (World l2 pg n f2 t2)) = t2 ++ events ∧
    processed_genes (process_gene_batch r l (World l1 pg n f1 t1)) = pg' ∧
    processed_genes (process_gene_batch r l (World l2 pg n f2 t2)) = pg' ∧
    current_gene_number (process_gene_batch r l (World l1 pg n f1 t1))
      = n + Z.of_nat (length l) ∧
    current_gene_number (process_gene_batch r l (World l2 pg n f2 t2))
      = n + Z.of_nat (length l).
Proof.
  induction l as [| g l IH]; intros pg n l1 f1 t1 l2 f2 t2.
  - exists [], pg. simpl. rewrite !app_nil_r. repeat split; lia.
  - simpl.
    destruct (process_gene_same_events r g pg n l1 f1 t1 l2 f2 t2)
      as (now & pg1 & H1 & H2 & H3 & H4 & H5 & H6).
    destruct (process_gene r g (World l1 pg n f1 t1))
      as [l1' pg1' n1' f1' t1'].
    destruct (process_gene r g (World l2 pg n f2 t2))
      as [l2' pg2' n2' f2' t2'].
    simpl in *. subst t1' t2' pg1' pg2' n1' n2'.
    destruct (IH pg1 (n + 1) l1' f1' (t1 ++ now) l2' f2' (t2 ++ now))
      as (later & pg' & -> & -> & -> & -> & -> & ->).
    exists (now ++ later), pg'. rewrite !app_assoc. repeat split; lia.
Qed.

Lemma work_app xs ys : work (xs ++ ys) = work xs ++ work ys.
Proof. apply filter_app. Qed.

Lemma drop_length_take {A} (l : list A) k :
  drop (length (take k l)) l = drop k l.
Proof.
  rewrite length_take. destruct (Nat.le_gt_cases k (length l)).
  - by rewrite Nat.min_l.
  - rewrite Nat.min_r by lia. by rewrite !drop_ge by lia.
Qed.

(** X27: interrupting a run between two identifiers and running the script
    again does what the uninterrupted run does, when the remote service
    answers the same: the remote requests and artifact writes of the
    interrupted run followed by those of the resumed run are those of the
    uninterrupted run, in the same order and with the same contents, and
    the processed set and the position at the end are the same. *)
Theorem resumed_run_does_the_rest
    r genes f completed last_gene position k :
  load_checkpoint f = Ok (completed, last_gene, position) →
  0 ≤ position →
  let straight := main r genes f in
  let interrupted := signal_handler (state_after r genes f k) in
  let resumed := main r genes (checkpoint_json interrupted) in
  work (trace straight) = work (trace interrupted) ++ work (trace resumed) ∧
  processed_genes resumed = processed_genes straight ∧
  current_gene_number resumed = current_gene_number straight.
Proof.
  intros Hload Hpos straight interrupted resumed.
  subst straight interrupted resumed.
  rewrite (main_from_position r genes f completed last_gene position)
    by done.
  unfold state_after.
  rewrite (resume_start f completed last_gene position Hload).
  cbn [snd current_gene_number]. unfold visited.
  rewrite concat_batches by done.
  set (l := drop (Z.to_nat position) genes).
  assert (Hsplit :
    process_gene_batch r l (World None completed position f [])
    = process_gene_batch r (drop k l)
        (process_gene_batch r (take k l)
           (World None completed position f [])))
    by (by rewrite <- process_gene_batch_app, take_drop).
  rewrite Hsplit. clear Hsplit.
  pose proof (position_after_loop r (take k l)
                (World None completed position f [])) as Hnum.
  simpl in Hnum.
  destruct (process_gene_batch r (take k l)
              (World None completed position f []))
    as [lm pgm nm fm tm] eqn:Hmid.
  simpl in Hnum. subst nm.
  unfold signal_handler.
  set (saved := checkpoint_json
                  (save_checkpoint
                     (processed_genes
                        (World lm pgm (position + Z.of_nat (length (take k l)))
                               fm tm))
                     (World lm pgm (position + Z.of_nat (length (take k l)))
                            fm tm))).
  assert (Hsaved : load_checkpoint saved
                   = Ok (pgm, lm, position + Z.of_nat (length (take k l)))).
  { subst saved. simpl. by rewrite list_to_set_elements_L. }
  rewrite (main_from_position r genes saved _ _ _ Hsaved) by lia.
  replace (drop (Z.to_nat (position + Z.of_nat (length (take k l)))) genes)
    with (drop k l).
  2:{ rewrite <- (drop_length_take l k). subst l. rewrite drop_drop.
      f_equal. lia. }
  destruct (process_gene_batch_same_events r (drop k l) pgm
              (position + Z.of_nat (length (take k l)))
              lm fm tm None saved [])
    as (events & pg' & H1 & H2 & H3 & H4 & H5 & H6).
  cbv zeta.
  unfold save_checkpoint, save_checkpoint_until, log, set_checkpoint_json.
  cbn [trace processed_genes current_gene_number].
  rewrite H1, H2, H3, H4, H5, H6. rewrite !work_app. simpl.
  rewrite !app_nil_r. by repeat split.
Qed.

Lemma resumed_run_does_the_rest_witness :
  let genes := [Gene "G1" "foo"; Gene "G3" "baz"; Gene "G2" "bar"] in
  let straight := main sample_remote genes Missing in
  let interrupted :=
    signal_handler (state_after sample_remote genes Missing 1) in
  let resumed := main sample_remote genes (checkpoint_json interrupted) in
  work (trace straight) = work (trace interrupted) ++ work (trace resumed) ∧
  processed_genes resumed = processed_genes straight ∧
  current_gene_number resumed = current_gene_number straight.
Proof.
  apply (resumed_run_does_the_rest sample_remote
           [Gene "G1" "foo"; Gene "G3" "baz"; Gene "G2" "bar"] Missing
           ∅ None 0 1 eq_refl).
  lia.
Defined.

End ResumeExtra.
